(** * Travel booking assistant: the turn pipeline of [main.py]

    A shallow embedding of [run_travel_agent] (main.py, lines 41-158) and of
    the submit handler of the chat page (lines 204-218), with the properties
    the specification states about them.

    Python values are modelled as follows.
    - [str] is a sequence of Unicode code points: [list N].  Literals of the
      source are written [py "..."].
    - the [dict] returned by [run_travel_agent] is a finite map from keys to
      strings ([gmap]); a chat message, a dict always built with the two keys
      ["role"] and ["content"], is a record with these two fields.
    - the list object [st.session_state.messages] lives in a store indexed by
      references; [chat_history] is a reference to it.
    - an [await]ed call is a computation in a state-and-exception monad;
      a raised exception ends the computation it is raised in unless an
      [except] clause of the source handles it. *)

From Stdlib Require Import NArith QArith Ascii String.
From stdpp Require Import base tactics option list functions gmap.

Open Scope N_scope.

(** ** Python strings *)

Abbreviation pystr := (list N).

(** A literal of the source, character by character. *)
Definition py (s : string) : pystr :=
  N_of_ascii <$> list_ascii_of_string s.
Arguments py s%_string : simpl never.

(** The line feed written [\n] in the source. *)
Definition LF : N := 10.

(** [str.isspace] on one character, the test [str.strip] uses: the
    characters CPython lists in [_PyUnicode_IsWhitespace]. *)
Definition isspace (c : N) : bool :=
  ((9 <=? c) && (c <=? 13))
  || ((28 <=? c) && (c <=? 32))
  || (c =? 133) || (c =? 160) || (c =? 5760)
  || ((8192 <=? c) && (c <=? 8202))
  || (c =? 8232) || (c =? 8233) || (c =? 8239) || (c =? 8287)
  || (c =? 12288).

Fixpoint lstrip (s : pystr) : pystr :=
  match s with
  | [] => []
  | c :: r => if isspace c then lstrip r else s
  end.

Definition rstrip (s : pystr) : pystr := rev (lstrip (rev s)).

(** [s.strip()]: leading and trailing whitespace removed. *)
Definition strip (s : pystr) : pystr := rstrip (lstrip s).

(** Truth value of a string in a condition: non-empty. *)
Definition truthy (s : pystr) : bool :=
  match s with [] => false | _ :: _ => true end.

(** [sep.join(parts)]; the source does not call it, the specification
    describes the prompt with it. *)
Fixpoint join (sep : pystr) (parts : list pystr) : pystr :=
  match parts with
  | [] => []
  | [p] => p
  | p :: rest => p ++ sep ++ join sep rest
  end.

(** ** Data model (lines 21-38) *)

Module IllegalAndIrrelevant.
Record t := Build
  { is_request_irrelevant_illegal : bool;
    reasoning : pystr }.
End IllegalAndIrrelevant.

Module ControlBookingCriteria.
Record t := Build
  { is_response_violates : bool;
    reasoning : pystr }.
End ControlBookingCriteria.

Module MessageOutput.
Record t := Build { response : pystr }.
End MessageOutput.

(** [budget] is a Python float in the source; no operation is ever applied
    to it, it is kept as the decimal the source writes. *)
Record UserInfo := Build_UserInfo
  { name : pystr;
    age : Z;
    departure_city : pystr;
    budget : Q;
    travel_history : list pystr }.

(** A chat message [{"role": ..., "content": ...}]. *)
Record Msg := Build_Msg { role : pystr; content : pystr }.

(** The structured reply an agent run ends with: an instance of the
    [output_type] of the agent that was run. *)
Inductive Output :=
| OutIllegal (v : IllegalAndIrrelevant.t)
| OutControl (v : ControlBookingCriteria.t)
| OutMessage (v : MessageOutput.t).

Inductive OutputType :=
| TIllegalAndIrrelevant | TControlBookingCriteria | TMessageOutput.

Definition type_of (o : Output) : OutputType :=
  match o with
  | OutIllegal _ => TIllegalAndIrrelevant
  | OutControl _ => TControlBookingCriteria
  | OutMessage _ => TMessageOutput
  end.

#[global] Instance OutputType_eq_dec : EqDecision OutputType.
Proof. solve_decision. Defined.

(** What a guardrail function returns (lines 92-95 and 106-109). *)
Record GuardrailFunctionOutput := Build_GuardrailFunctionOutput
  { output_info : Output;
    tripwire_triggered : bool }.

Record RunContextWrapper := Build_RunContextWrapper { context : UserInfo }.

Record RunResult := Build_RunResult { final_output : Output }.

Record AsyncOpenAI := Build_AsyncOpenAI
  { api_key : option pystr; base_url : pystr }.

Record OpenAIChatCompletionsModel := Build_OpenAIChatCompletionsModel
  { openai_client : AsyncOpenAI; model : pystr }.

(** ** Exceptions and the monad of awaited calls *)

(** The failures of a model call the specification names. *)
Inductive ProviderFailure :=
| MalformedReply | NetworkFailure | AuthenticationFailure | RateLimit.

(** The two tripwire exceptions carry the result of the guardrail that
    tripped, as in the library; everything else the source never names. *)
Inductive exn :=
| InputGuardrailTripwireTriggered (guardrail_result : GuardrailFunctionOutput)
| OutputGuardrailTripwireTriggered (guardrail_result : GuardrailFunctionOutput)
| ProviderError (cause : ProviderFailure)
| AttributeError
| KeyError (key : pystr)
| OtherException (what : pystr).

Inductive Res (A : Type) :=
| Return (a : A)
| Raise (e : exn).
Arguments Return {A} a.
Arguments Raise {A} e.

(** A computation over a state [S]: it ends with a value or an exception. *)
Definition M (S A : Type) : Type := S -> S * Res A.

Definition ret {S A} (a : A) : M S A := fun s => (s, Return a).

Definition raise {S A} (e : exn) : M S A := fun s => (s, Raise e).

Definition bind {S A B} (m : M S A) (k : A -> M S B) : M S B :=
  fun s =>
    match m s with
    | (s', Return a) => k a s'
    | (s', Raise e) => (s', Raise e)
    end.

(** [try: m  except e: h e]. *)
Definition try_except {S A} (m : M S A) (h : exn -> M S A) : M S A :=
  fun s =>
    match m s with
    | (s', Return a) => (s', Return a)
    | (s', Raise e) => h e s'
    end.

Notation "x <- m ;; k" := (bind m (fun x => k))
  (at level 62, m at next level, right associativity).
Notation "m ;;; k" := (bind m (fun _ => k))
  (at level 62, right associativity).

(** ** Agents *)

Module Agent.
Section Agent.
Context {World : Type}.

(** The guardrail functions also receive the agent they guard; neither
    of the two in the source looks at it, and it is left out. *)
Record t := Build
  { name : pystr;
    instructions : pystr;
    model : OpenAIChatCompletionsModel;
    input_guardrails :
      list (RunContextWrapper -> pystr -> M World GuardrailFunctionOutput);
    output_guardrails :
      list (RunContextWrapper -> Output -> M World GuardrailFunctionOutput);
    output_type : OutputType }.
End Agent.
Arguments t World : clear implicits.
End Agent.

(** ** Python dicts with string keys and values *)

Abbreviation dict := (gmap pystr pystr).

(** The literal [{k1: v1, k2: v2}]. *)
Definition dict2 (k1 v1 k2 v2 : pystr) : dict :=
  <[k2 := v2]> (<[k1 := v1]> ∅).

(** [d[k]]. *)
Definition getitem {S : Type} (d : dict) (k : pystr) : M S pystr :=
  match d !! k with
  | Some v => ret v
  | None => raise (KeyError k)
  end.

(** ** The store of the chat page *)

(** References to list objects.  [chat_history] and
    [st.session_state.messages] are two names of one list object: one
    reference. *)
Abbreviation loc := N.

Record State {World : Type} := Build_State
  { heap : loc -> list Msg;
    world : World }.
Arguments State World : clear implicits.
Arguments Build_State {World} heap world.

Section Store.
Context {World : Type}.

(** A call into the library: it holds no reference into the store. *)
Definition lift {A} (m : M World A) : M (State World) A :=
  fun st =>
    match m (world st) with
    | (w, r) => (Build_State (heap st) w, r)
    end.

(** Reading the list behind a reference, as a [for] loop over it does. *)
Definition read_list (l : loc) : M (State World) (list Msg) :=
  fun st => (st, Return (heap st l)).

(** [l.append(m)]. *)
Definition append (l : loc) (m : Msg) : M (State World) unit :=
  fun st => (Build_State (<[l := heap st l ++ [m]]> (heap st)) (world st), Return tt).
End Store.

(** ** The prompt (lines 136-140 and 147) *)

(** One iteration of the loop of lines 138-140. *)
Definition conversation_step (conversation : pystr) (msg : Msg) : pystr :=
  let role := if decide (role msg = py "user") then py "User" else py "Agent" in
  conversation ++ (role ++ py ": " ++ content msg ++ [LF]).

(** The loop of lines 137-140 over the whole history. *)
Definition build_conversation (chat_history : list Msg) : pystr :=
  foldl conversation_step [] chat_history.

(** The value passed as [input=] at line 147. *)
Definition prompt (chat_history : list Msg) : pystr :=
  strip (build_conversation chat_history).


(** ** [run_travel_agent] (lines 41-158) *)

Definition BASE_URL : pystr :=
  py "https://generativelanguage.googleapis.com/v1beta/openai/".

Definition input_guardrail_instructions : pystr := py "
        You are an input guardrail agent. Your job is to decide whether the user's request is:
        - asking to book travel to an illegal/unsafe/restricted destination,
        - OR the message is clearly irrelevant or offensive.
        Return:
          is_request_irrelevant_illegal: bool
          reasoning: short explanation
        ".

Definition output_guardrail_instructions : pystr := py "
        You are an output guardrail agent. Inspect the assistant's reply text and decide:
        - Does it give medical/legal advice? (flag)
        - OR confirm a booking without showing cost? (flag)
        Return:
          is_response_violates: bool
          reasoning: short explanation
        ".

Definition travel_agent_instructions : pystr := py "
        You are a travel booking assistant. Help the user find and summarize flight & hotel options,
        explain costs clearly, and guide them through booking steps.
        Maintain context from the entire conversation history provided.
        ".

(** Lines 127-133. *)
Definition user_info : UserInfo :=
  {| name := py "Mark Willson";
     age := 45;
     departure_city := py "Tokyo";
     budget := 180.4;
     travel_history := [py "China"; py "UAE"; py "Iran"; py "India"] |}.

Section Pipeline.
Context {World : Type}.

(** [os.getenv("GEMINI_API_KEY")]: [None] when the variable is not set. *)
Variable GEMINI_KEY : option pystr.

(** [Runner.run(starting_agent=, input=, context=)] of the library
    [agents], which is not part of the repository: any function of this
    type.  It works on its own state (the provider, the network) and is
    handed the prompt and the profile only. *)
Variable Runner_run :
  Agent.t World -> pystr -> UserInfo -> M World RunResult.

Definition client : AsyncOpenAI :=
  {| api_key := GEMINI_KEY; base_url := BASE_URL |}.

Definition premium_model : OpenAIChatCompletionsModel :=
  {| openai_client := client; model := py "gemini-2.5-flash" |}.

Definition basic_model : OpenAIChatCompletionsModel :=
  {| openai_client := client; model := py "gemini-2.0-flash" |}.

(** Lines 55-67. *)
Definition illegal_and_irrelevant_input_guardrail : Agent.t World :=
  {| Agent.name := py "input guardrail agent";
     Agent.instructions := input_guardrail_instructions;
     Agent.model := basic_model;
     Agent.input_guardrails := [];
     Agent.output_guardrails := [];
     Agent.output_type := TIllegalAndIrrelevant |}.

(** Lines 70-82. *)
Definition control_booking_output_guardrail : Agent.t World :=
  {| Agent.name := py "output guardrail agent";
     Agent.instructions := output_guardrail_instructions;
     Agent.model := basic_model;
     Agent.input_guardrails := [];
     Agent.output_guardrails := [];
     Agent.output_type := TControlBookingCriteria |}.

(** Lines 85-95.  Reading [is_request_irrelevant_illegal] off a reply of
    another class raises [AttributeError]. *)
Definition illegal_irrelevant (ctx : RunContextWrapper) (user_input : pystr)
  : M World GuardrailFunctionOutput :=
  result <- Runner_run illegal_and_irrelevant_input_guardrail
              user_input (context ctx) ;;
  match final_output result with
  | OutIllegal v =>
      ret {| output_info := final_output result;
             tripwire_triggered :=
               IllegalAndIrrelevant.is_request_irrelevant_illegal v |}
  | _ => raise AttributeError
  end.

(** Lines 99-109. *)
Definition check_booking (ctx : RunContextWrapper) (output : Output)
  : M World GuardrailFunctionOutput :=
  match output with
  | OutMessage o =>
      result <- Runner_run control_booking_output_guardrail
                  (MessageOutput.response o) (context ctx) ;;
      match final_output result with
      | OutControl v =>
          ret {| output_info := final_output result;
                 tripwire_triggered :=
                   ControlBookingCriteria.is_response_violates v |}
      | _ => raise AttributeError
      end
  | _ => raise AttributeError
  end.

(** Lines 113-124. *)
Definition Travel_Booking_Assistant_Agent : Agent.t World :=
  {| Agent.name := py "travel booking agent";
     Agent.instructions := travel_agent_instructions;
     Agent.model := premium_model;
     Agent.input_guardrails := [illegal_irrelevant];
     Agent.output_guardrails := [check_booking];
     Agent.output_type := TMessageOutput |}.

Definition input_block_reason : pystr :=
  py "Illegal or irrelevant request.".

Definition output_block_reason : pystr :=
  py "Blocked for safety (medical/legal advice or missing cost).".

(** The two [except] clauses of lines 153-158: any other exception is
    not handled and goes on to the caller. *)
Definition on_exception (e : exn) : M (State World) dict :=
  match e with
  | InputGuardrailTripwireTriggered _ =>
      ret (dict2 (py "status") (py "blocked_input")
                 (py "reason") input_block_reason)
  | OutputGuardrailTripwireTriggered _ =>
      ret (dict2 (py "status") (py "blocked_output")
                 (py "reason") output_block_reason)
  | _ => raise e
  end.

(** Lines 136-158. *)
Definition run_travel_agent (chat_history : loc) : M (State World) dict :=
  history <- read_list chat_history ;;
  let conversation := build_conversation history in
  try_except
    (result <- lift (Runner_run Travel_Booking_Assistant_Agent
                       (strip conversation) user_info) ;;
     match final_output result with
     | OutMessage o =>
         ret (dict2 (py "status") (py "success")
                    (py "response") (MessageOutput.response o))
     | _ => raise AttributeError
     end)
    on_exception.

(** ** The submit handler (lines 204-218)

    [messages] is the reference held in [st.session_state.messages].  The
    spinner and [st.rerun()] only redraw the page. *)
Definition submit_handler (messages : loc) (submit : bool)
    (user_input : pystr) : M (State World) unit :=
  if submit && truthy (strip user_input) then
    append messages {| role := py "user"; content := user_input |} ;;;
    result <- run_travel_agent messages ;;
    status <- getitem result (py "status") ;;
    if decide (status = py "success") then
      response <- getitem result (py "response") ;;
      append messages {| role := py "agent"; content := response |}
    else if decide (status = py "blocked_input") then
      reason <- getitem result (py "reason") ;;
      append messages {| role := py "agent";
                         content := py "Request Blocked: " ++ reason |}
    else if decide (status = py "blocked_output") then
      reason <- getitem result (py "reason") ;;
      append messages {| role := py "agent";
                         content := py "Response Blocked: " ++ reason |}
    else ret tt
  else ret tt.
End Pipeline.

(** ** The agent runtime *)

(** One request to the model provider, with the profile the run was given
    as context. *)
Record Call := Build_Call
  { call_agent : pystr;
    call_model : OpenAIChatCompletionsModel;
    call_instructions : pystr;
    call_input : pystr;
    call_context : UserInfo }.

(** What the provider sends back: a structured object, or a failure. *)
Inductive Reply :=
| Structured (o : Output)
| Failed (cause : ProviderFailure).

Module Runner.
Section Runner.
(** The model provider is not deterministic: its reply may depend on
    everything that was asked before. *)
Variable provider : list Call -> Call -> Reply.

(** The request for one agent: logged, then answered.  A reply that is
    not of the agent's [output_type] is a malformed reply. *)
Definition call_provider (a : Agent.t (list Call)) (input : pystr)
    (ctx : UserInfo) : M (list Call) Output :=
  fun log =>
    let c := {| call_agent := Agent.name a;
                call_model := Agent.model a;
                call_instructions := Agent.instructions a;
                call_input := input;
                call_context := ctx |} in
    (log ++ [c],
     match provider log c with
     | Structured o =>
         if decide (type_of o = Agent.output_type a) then Return o
         else Raise (ProviderError MalformedReply)
     | Failed cause => Raise (ProviderError cause)
     end).

Fixpoint run_input_guardrails
    (gs : list (RunContextWrapper -> pystr
                -> M (list Call) GuardrailFunctionOutput))
    (ctx : UserInfo) (input : pystr) : M (list Call) unit :=
  match gs with
  | [] => ret tt
  | g :: rest =>
      verdict <- g {| context := ctx |} input ;;
      if tripwire_triggered verdict
      then raise (InputGuardrailTripwireTriggered verdict)
      else run_input_guardrails rest ctx input
  end.

Fixpoint run_output_guardrails
    (gs : list (RunContextWrapper -> Output
                -> M (list Call) GuardrailFunctionOutput))
    (ctx : UserInfo) (output : Output) : M (list Call) unit :=
  match gs with
  | [] => ret tt
  | g :: rest =>
      verdict <- g {| context := ctx |} output ;;
      if tripwire_triggered verdict
      then raise (OutputGuardrailTripwireTriggered verdict)
      else run_output_guardrails rest ctx output
  end.

(** Modelled from the spec: [Runner.run] of the library [agents], which
    the repository imports and does not contain.  Specification 4.3 and
    5: the input guardrails of the agent run first, on the input of the
    run; if one trips, [InputGuardrailTripwireTriggered] is raised and
    nothing else is called; otherwise the agent's model is asked once;
    then the output guardrails run on its reply, and a tripped one
    raises [OutputGuardrailTripwireTriggered]; otherwise the reply is
    the [final_output].  The three steps are strictly sequential. *)
Definition run (starting_agent : Agent.t (list Call)) (input : pystr)
    (context : UserInfo) : M (list Call) RunResult :=
  run_input_guardrails (Agent.input_guardrails starting_agent)
    context input ;;;
  output <- call_provider starting_agent input context ;;
  run_output_guardrails (Agent.output_guardrails starting_agent)
    context output ;;;
  ret {| final_output := output |}.
End Runner.
End Runner.

(** The page with this runtime: what one call and one submit do. *)
Definition run_turn (key : option pystr) (provider : list Call -> Call -> Reply)
    (chat_history : loc) : M (State (list Call)) dict :=
  run_travel_agent key (Runner.run provider) chat_history.

Definition submit_turn (key : option pystr)
    (provider : list Call -> Call -> Reply)
    (messages : loc) (submit : bool) (user_input : pystr)
    : M (State (list Call)) unit :=
  submit_handler key (Runner.run provider) messages submit user_input.

(** ** The outcome of a turn *)

(** The three variants of the specification (section 3, PipelineOutcome). *)
Inductive Outcome :=
| Success (reply_text : pystr)
| BlockedInput (reason : pystr)
| BlockedOutput (reason : pystr).

(** The dict of the source that stands for each variant (lines 150, 154
    and 158). *)
Definition to_dict (o : Outcome) : dict :=
  match o with
  | Success t => dict2 (py "status") (py "success") (py "response") t
  | BlockedInput r => dict2 (py "status") (py "blocked_input") (py "reason") r
  | BlockedOutput r => dict2 (py "status") (py "blocked_output") (py "reason") r
  end.

(** What the submit handler appends as the agent's turn (lines 211-216). *)
Definition render (o : Outcome) : pystr :=
  match o with
  | Success t => t
  | BlockedInput r => py "Request Blocked: " ++ r
  | BlockedOutput r => py "Response Blocked: " ++ r
  end.

(** The exceptions [run_travel_agent] has an [except] clause for. *)
Definition is_tripwire (e : exn) : bool :=
  match e with
  | InputGuardrailTripwireTriggered _ | OutputGuardrailTripwireTriggered _ => true
  | _ => false
  end.

(** One line of the prompt as the specification writes it, without its
    line feed. *)
Definition line (msg : Msg) : pystr :=
  (if decide (role msg = py "user") then py "User" else py "Agent")
  ++ py ": " ++ content msg.

(** The last character of the last turn is not whitespace; an empty
    transcript has no such character to lose. *)
Definition ends_visibly (chat_history : list Msg) : bool :=
  match last chat_history with
  | None => true
  | Some msg =>
      match last (content msg) with
      | None => false
      | Some c => negb (isspace c)
      end
  end.

(** The three requests of a turn, as [run_travel_agent] sets them up. *)
Definition pre_gate_call (key : option pystr) (text : pystr) : Call :=
  {| call_agent := py "input guardrail agent";
     call_model := basic_model key;
     call_instructions := input_guardrail_instructions;
     call_input := text;
     call_context := user_info |}.

Definition responder_call (key : option pystr) (text : pystr) : Call :=
  {| call_agent := py "travel booking agent";
     call_model := premium_model key;
     call_instructions := travel_agent_instructions;
     call_input := text;
     call_context := user_info |}.

Definition post_gate_call (key : option pystr) (text : pystr) : Call :=
  {| call_agent := py "output guardrail agent";
     call_model := basic_model key;
     call_instructions := output_guardrail_instructions;
     call_input := text;
     call_context := user_info |}.

(** How many requests of a log went to the agent of a given name. *)
Definition calls_to (agent_name : pystr) (log : list Call) : nat :=
  length (filter (fun c => call_agent c = agent_name) log).

(** The state after the user's message is appended (line 206). *)
Definition with_user_turn {World : Type} (messages : loc) (user_input : pystr)
    (st : State World) : State World :=
  Build_State (<[messages := heap st messages
                             ++ [{| role := py "user"; content := user_input |}]]>
                 (heap st))
              (world st).

(** The state after the agent's turn is appended (lines 212-216). *)
Definition with_agent_turn {World : Type} (messages : loc) (text : pystr)
    (st : State World) : State World :=
  Build_State (<[messages := heap st messages
                             ++ [{| role := py "agent"; content := text |}]]>
                 (heap st))
              (world st).

(** The requests made between two states of the page. *)
Definition calls_during (st st' : State (list Call)) : list Call :=
  drop (length (world st)) (world st').

(** A session: one submit after the other, each on the list the previous
    one left; an exception ends it. *)
Fixpoint session {World : Type} (key : option pystr)
    (R : Agent.t World -> pystr -> UserInfo -> M World RunResult)
    (messages : loc) (inputs : list pystr) : M (State World) unit :=
  match inputs with
  | [] => ret tt
  | user_input :: rest =>
      submit_handler key R messages true user_input ;;;
      session key R messages rest
  end.

(** The turns [n] completed submits add to the transcript. *)
Definition exchange (user_input : pystr) (o : Outcome) : list Msg :=
  [{| role := py "user"; content := user_input |};
   {| role := py "agent"; content := render o |}].

(** ** Concrete providers and pages, for the examples *)

Definition verdict_in (triggered : bool) (why : string) : Reply :=
  Structured (OutIllegal
    {| IllegalAndIrrelevant.is_request_irrelevant_illegal := triggered;
       IllegalAndIrrelevant.reasoning := py why |}).

Definition verdict_out (triggered : bool) (why : string) : Reply :=
  Structured (OutControl
    {| ControlBookingCriteria.is_response_violates := triggered;
       ControlBookingCriteria.reasoning := py why |}).

Definition reply_text (text : string) : Reply :=
  Structured (OutMessage {| MessageOutput.response := py text |}).

(** A provider that answers each of the three agents with a fixed reply. *)
Definition scripted (pre resp post : Reply) : list Call -> Call -> Reply :=
  fun _ c =>
    if decide (call_agent c = py "input guardrail agent") then pre
    else if decide (call_agent c = py "travel booking agent") then resp
    else post.

(** A page whose session list, at reference 0, holds the given turns. *)
Definition page (turns : list Msg) : State (list Call) :=
  Build_State (fun _ => turns) [].

Definition seoul : list Msg :=
  [{| role := py "user"; content := py "Flights from Tokyo to Seoul?" |}].

(** ** The chat page around the handler (lines 184-218)

    One run of the script draws the page from the start.  The title, the
    captions and the sidebar (lines 164-180) neither read nor write the
    session and are left out; what is kept is the session state, the blocks
    drawn for the transcript, and the form's two values. *)

(** A call [st.markdown(body, unsafe_allow_html=...)]. *)
Record Markdown := Build_Markdown
  { body : pystr;
    unsafe_allow_html : bool }.

(** Line 192. *)
Definition user_block (content : pystr) : Markdown :=
  {| body := py "<div style='text-align:right; background-color:#d1e7dd; padding:10px; border-radius:10px; margin:5px 0;'><b>You:</b> "
             ++ content ++ py "</div>";
     unsafe_allow_html := true |}.

(** Line 194. *)
Definition agent_block (content : pystr) : Markdown :=
  {| body := py "<div style='text-align:left; background-color:#f8f9fa; padding:10px; border-radius:10px; margin:5px 0;'><b>Agent:</b> "
             ++ content ++ py "</div>";
     unsafe_allow_html := true |}.

(** The body of the loop of lines 190-194, for one message. *)
Definition block_of (msg : Msg) : Markdown :=
  if decide (role msg = py "user") then user_block (content msg)
  else agent_block (content msg).

(** [st.session_state] maps names to objects; a new list object is
    allocated at [next_loc].  [screen] holds what the current run of the
    script has drawn so far. *)
Record Page {World : Type} := Build_Page
  { session_state : gmap pystr loc;
    next_loc : loc;
    screen : list Markdown;
    store : State World }.
Arguments Page World : clear implicits.
Arguments Build_Page {World} session_state next_loc screen store.

Section Script.
Context {World : Type}.
Variable GEMINI_KEY : option pystr.
Variable Runner_run :
  Agent.t World -> pystr -> UserInfo -> M World RunResult.

(** Code that works on the store of list objects, run on the page. *)
Definition in_store {A} (m : M (State World) A) : M (Page World) A :=
  fun pg =>
    match m (store pg) with
    | (st, r) =>
        (Build_Page (session_state pg) (next_loc pg) (screen pg) st, r)
    end.

(** Lines 185-186. *)
Definition init_session : M (Page World) unit :=
  fun pg =>
    match session_state pg !! py "messages" with
    | Some _ => (pg, Return tt)
    | None =>
        (Build_Page (<[py "messages" := next_loc pg]> (session_state pg))
                    (next_loc pg + 1)
                    (screen pg)
                    (Build_State (<[next_loc pg := []]> (heap (store pg)))
                                 (world (store pg))),
         Return tt)
    end.

(** [st.session_state.messages], read. *)
Definition session_messages : M (Page World) loc :=
  fun pg =>
    match session_state pg !! py "messages" with
    | Some l => (pg, Return l)
    | None => (pg, Raise AttributeError)
    end.

Definition markdown (block : Markdown) : M (Page World) unit :=
  fun pg =>
    (Build_Page (session_state pg) (next_loc pg) (screen pg ++ [block])
                (store pg),
     Return tt).

(** The loop of lines 190-194 over the messages it is given. *)
Fixpoint display (history : list Msg) : M (Page World) unit :=
  match history with
  | [] => ret tt
  | msg :: rest => markdown (block_of msg) ;;; display rest
  end.

(** One run of the script, top to bottom, with the values the form returns
    in this run. *)
Definition script_run (submit : bool) (user_input : pystr)
    : M (Page World) unit :=
  (fun pg => (Build_Page (session_state pg) (next_loc pg) [] (store pg),
              Return tt)) ;;;
  init_session ;;;
  shown <- session_messages ;;
  history <- in_store (read_list shown) ;;
  display history ;;;
  messages <- session_messages ;;
  in_store (submit_handler GEMINI_KEY Runner_run messages submit user_input).

(** What one action of the user leads to: the run it triggers and, when
    that run reaches [st.rerun()] (line 218), the run that follows, in
    which the form is cleared and the button is not pressed. *)
Definition visit (submit : bool) (user_input : pystr) : M (Page World) unit :=
  script_run submit user_input ;;;
  if submit && truthy (strip user_input) then script_run false [] else ret tt.

(** Any number of actions, one after the other; the session outlives a run
    that ended with an exception. *)
Definition browse (actions : list (bool * pystr)) (pg : Page World)
    : Page World :=
  foldl (fun pg action => (visit action.1 action.2 pg).1) pg actions.
End Script.

(** The text has a character that is not whitespace. *)
Definition has_visible (s : pystr) : bool :=
  existsb (fun c => negb (isspace c)) s.

(** A page whose session already has its list, at reference 0, with the
    given turns; and a page nobody has opened yet. *)
Definition chat_page (turns : list Msg) : Page (list Call) :=
  Build_Page {[ py "messages" := 0 ]} 1 [] (page turns).

Definition new_page : Page (list Call) :=
  Build_Page ∅ 0 [] (page []).

(** * Properties *)

Example prompt_abc :
  prompt [Build_Msg (py "user") (py "a"); Build_Msg (py "agent") (py "b");
          Build_Msg (py "user") (py "c")]
  = py "User: a" ++ [LF] ++ py "Agent: b" ++ [LF] ++ py "User: c".
Proof. reflexivity. Qed.

(** ** Dicts of outcomes *)

Lemma dict2_lookup_fst (k1 v1 k2 v2 : pystr) :
  k1 ≠ k2 -> dict2 k1 v1 k2 v2 !! k1 = Some v1.
Proof.
  intros Hne. unfold dict2.
  rewrite lookup_insert_ne by congruence.
  apply lookup_insert_eq.
Qed.

Lemma dict2_lookup_snd (k1 v1 k2 v2 : pystr) :
  dict2 k1 v1 k2 v2 !! k2 = Some v2.
Proof. unfold dict2. apply lookup_insert_eq. Qed.

Lemma status_of_to_dict (o : Outcome) :
  to_dict o !! py "status"
  = Some match o with
         | Success _ => py "success"
         | BlockedInput _ => py "blocked_input"
         | BlockedOutput _ => py "blocked_output"
         end.
Proof. destruct o; apply dict2_lookup_fst; discriminate. Qed.

Lemma to_dict_inj (o1 o2 : Outcome) : to_dict o1 = to_dict o2 -> o1 = o2.
Proof.
  intros Heq.
  assert (Hs : to_dict o1 !! py "status" = to_dict o2 !! py "status")
    by (now rewrite Heq).
  rewrite !status_of_to_dict in Hs.
  destruct o1, o2; try discriminate Hs; clear Hs;
    match goal with
    | H : to_dict (_ ?a) = to_dict (_ ?b) |- _ =>
        assert (Hv : Some a = Some b);
        [ cbn [to_dict] in H;
          erewrite <- (dict2_lookup_snd _ _ _ a), <- (dict2_lookup_snd _ _ _ b);
          now rewrite H
        | now inversion Hv ]
    end.
Qed.

(** ** What [run_travel_agent] does with the result of the run *)

Section Generic.
Context {World : Type}.
Variable key : option pystr.
Variable R : Agent.t World -> pystr -> UserInfo -> M World RunResult.

Lemma run_travel_agent_unfold (l : loc) (st : State World) :
  run_travel_agent key R l st
  = match R (Travel_Booking_Assistant_Agent key R) (prompt (heap st l))
            user_info (world st) with
    | (w, Return result) =>
        match final_output result with
        | OutMessage o =>
            (Build_State (heap st) w,
             Return (to_dict (Success (MessageOutput.response o))))
        | _ => (Build_State (heap st) w, Raise AttributeError)
        end
    | (w, Raise e) => on_exception e (Build_State (heap st) w)
    end.
Proof.
  unfold run_travel_agent, bind, try_except, read_list, lift, prompt.
  cbn [world heap].
  destruct (R _ _ _ _) as [w [result | e]]; [| reflexivity].
  destruct (final_output result); reflexivity.
Qed.

Lemma on_exception_other (e : exn) (st : State World) :
  is_tripwire e = false -> on_exception e st = (st, Raise e).
Proof. destruct e; try discriminate; reflexivity. Qed.

(** Whatever the run does, the call leaves every list of the store as it
    was, and returns one of the three dicts or raises. *)
Lemma run_travel_agent_cases (l : loc) (st : State World) :
  exists w,
    (exists o, run_travel_agent key R l st
               = (Build_State (heap st) w, Return (to_dict o))
               /\ match o with
                  | Success _ => True
                  | BlockedInput r => r = input_block_reason
                  | BlockedOutput r => r = output_block_reason
                  end)
    \/ (exists e, run_travel_agent key R l st
                  = (Build_State (heap st) w, Raise e)).
Proof.
  rewrite run_travel_agent_unfold.
  destruct (R _ _ _ _) as [w [result | e]]; exists w.
  - destruct (final_output result) as [v | v | v].
    + right. eexists; reflexivity.
    + right. eexists; reflexivity.
    + left. exists (Success (MessageOutput.response v)). split; [reflexivity | exact I].
  - destruct e; try (right; eexists; reflexivity).
    + left. exists (BlockedInput input_block_reason). split; reflexivity.
    + left. exists (BlockedOutput output_block_reason). split; reflexivity.
Qed.
End Generic.

(** C1. Whenever [run_travel_agent] returns, the dict it returns stands for
    exactly one of the three outcome variants: it is the dict of one
    variant (Success with its response, BlockedInput or BlockedOutput with
    its reason) and of no other. *)
Theorem run_travel_agent_one_outcome {World : Type} (key : option pystr)
    (R : Agent.t World -> pystr -> UserInfo -> M World RunResult)
    (chat_history : loc) (st st' : State World) (out : dict) :
  run_travel_agent key R chat_history st = (st', Return out) ->
  exists! o : Outcome, out = to_dict o.
Proof.
  intros Hrun.
  destruct (run_travel_agent_cases key R chat_history st)
    as [w [[o [Ho _]] | [e He]]]; rewrite Hrun in *.
  - injection Ho as _ ->. exists o. split; [reflexivity |].
    intros o' Ho'. now apply to_dict_inj.
  - discriminate He.
Qed.

(** ** One turn on the modelled runtime *)

Section Turn.
Variable key : option pystr.
Variable provider : list Call -> Call -> Reply.

Let R := Runner.run provider.

Local Ltac step_agent :=
  cbn [Agent.name Agent.instructions Agent.model Agent.input_guardrails
       Agent.output_guardrails Agent.output_type
       illegal_and_irrelevant_input_guardrail
       control_booking_output_guardrail Travel_Booking_Assistant_Agent
       Runner.run_input_guardrails Runner.run_output_guardrails].

(** The run of the input gate: one request, its reply decoded. *)
Lemma pre_gate_run (text : pystr) (ctx : UserInfo) (log : list Call) :
  ctx = user_info ->
  R (illegal_and_irrelevant_input_guardrail key) text ctx log
  = (log ++ [pre_gate_call key text],
     match provider log (pre_gate_call key text) with
     | Structured o =>
         if decide (type_of o = TIllegalAndIrrelevant)
         then Return {| final_output := o |}
         else Raise (ProviderError MalformedReply)
     | Failed cause => Raise (ProviderError cause)
     end).
Proof.
  intros ->. unfold R, Runner.run. step_agent.
  unfold Runner.call_provider, bind, ret. step_agent. cbv beta iota zeta.
  fold (pre_gate_call key text).
  destruct (provider log (pre_gate_call key text)) as [o | c]; [| reflexivity].
  destruct (decide _); reflexivity.
Qed.

Lemma post_gate_run (text : pystr) (ctx : UserInfo) (log : list Call) :
  ctx = user_info ->
  R (control_booking_output_guardrail key) text ctx log
  = (log ++ [post_gate_call key text],
     match provider log (post_gate_call key text) with
     | Structured o =>
         if decide (type_of o = TControlBookingCriteria)
         then Return {| final_output := o |}
         else Raise (ProviderError MalformedReply)
     | Failed cause => Raise (ProviderError cause)
     end).
Proof.
  intros ->. unfold R, Runner.run. step_agent.
  unfold Runner.call_provider, bind, ret. step_agent. cbv beta iota zeta.
  fold (post_gate_call key text).
  destruct (provider log (post_gate_call key text)) as [o | c]; [| reflexivity].
  destruct (decide _); reflexivity.
Qed.

(** The guardrail function of the input gate, on the modelled runtime. *)
Lemma illegal_irrelevant_run (text : pystr) (log : list Call) :
  illegal_irrelevant key R {| context := user_info |} text log
  = (log ++ [pre_gate_call key text],
     match provider log (pre_gate_call key text) with
     | Structured (OutIllegal v) =>
         Return {| output_info := OutIllegal v;
                   tripwire_triggered :=
                     IllegalAndIrrelevant.is_request_irrelevant_illegal v |}
     | Structured _ => Raise (ProviderError MalformedReply)
     | Failed cause => Raise (ProviderError cause)
     end).
Proof.
  unfold illegal_irrelevant, bind. cbn [context].
  rewrite pre_gate_run by reflexivity.
  destruct (provider log (pre_gate_call key text)) as [[v | v | v] | c];
    reflexivity.
Qed.

Lemma check_booking_run (text : pystr) (log : list Call) :
  check_booking key R {| context := user_info |}
    (OutMessage {| MessageOutput.response := text |}) log
  = (log ++ [post_gate_call key text],
     match provider log (post_gate_call key text) with
     | Structured (OutControl v) =>
         Return {| output_info := OutControl v;
                   tripwire_triggered :=
                     ControlBookingCriteria.is_response_violates v |}
     | Structured _ => Raise (ProviderError MalformedReply)
     | Failed cause => Raise (ProviderError cause)
     end).
Proof.
  unfold check_booking, bind. cbn [context MessageOutput.response].
  rewrite post_gate_run by reflexivity.
  destruct (provider log (post_gate_call key text)) as [[v | v | v] | c];
    reflexivity.
Qed.

(** The request to the responder itself. *)
Lemma responder_request (text : pystr) (log : list Call) :
  Runner.call_provider provider (Travel_Booking_Assistant_Agent key R)
    text user_info log
  = (log ++ [responder_call key text],
     match provider log (responder_call key text) with
     | Structured (OutMessage v) => Return (OutMessage v)
     | Structured _ => Raise (ProviderError MalformedReply)
     | Failed cause => Raise (ProviderError cause)
     end).
Proof.
  unfold Runner.call_provider. step_agent. fold (responder_call key text).
  destruct (provider log (responder_call key text)) as [[v | v | v] | c];
    reflexivity.
Qed.

(** The whole run of the travel agent, step by step. *)
Lemma travel_agent_run (text : pystr) (log : list Call) :
  R (Travel_Booking_Assistant_Agent key R) text user_info log
  = match illegal_irrelevant key R {| context := user_info |} text log with
    | (log1, Raise e) => (log1, Raise e)
    | (log1, Return verdict) =>
        if tripwire_triggered verdict
        then (log1, Raise (InputGuardrailTripwireTriggered verdict))
        else
          match Runner.call_provider provider
                  (Travel_Booking_Assistant_Agent key R) text user_info log1
          with
          | (log2, Raise e) => (log2, Raise e)
          | (log2, Return output) =>
              match check_booking key R {| context := user_info |}
                      output log2 with
              | (log3, Raise e) => (log3, Raise e)
              | (log3, Return verdict') =>
                  if tripwire_triggered verdict'
                  then (log3, Raise (OutputGuardrailTripwireTriggered verdict'))
                  else (log3, Return {| final_output := output |})
              end
          end
    end.
Proof.
  unfold R at 1. unfold Runner.run. step_agent.
  unfold bind. fold R.
  destruct (illegal_irrelevant _ _ _ _ _) as [log1 [verdict | e]];
    [| reflexivity].
  destruct (tripwire_triggered verdict); [reflexivity |]. cbn [ret].
  destruct (Runner.call_provider _ _ _ _ _) as [log2 [output | e]];
    [| reflexivity].
  destruct (check_booking _ _ _ _ _) as [log3 [verdict' | e]];
    [| reflexivity].
  destruct (tripwire_triggered verdict'); reflexivity.
Qed.
End Turn.

(** ** The submit handler *)

Section Handler.
Context {World : Type}.
Variable key : option pystr.
Variable R : Agent.t World -> pystr -> UserInfo -> M World RunResult.

Lemma submit_handler_skip (l : loc) (submit : bool) (user_input : pystr)
    (st : State World) :
  submit && truthy (strip user_input) = false ->
  submit_handler key R l submit user_input st = (st, Return tt).
Proof. intros H. unfold submit_handler. rewrite H. reflexivity. Qed.

Lemma submit_handler_raise (l : loc) (user_input : pystr)
    (st st1 : State World) (e : exn) :
  truthy (strip user_input) = true ->
  run_travel_agent key R l (with_user_turn l user_input st) = (st1, Raise e) ->
  submit_handler key R l true user_input st = (st1, Raise e).
Proof.
  intros Hguard Hrun. unfold submit_handler. rewrite Hguard.
  cbn [andb]. unfold bind at 1. unfold append at 1.
  fold (with_user_turn l user_input st).
  unfold bind at 1. rewrite Hrun. reflexivity.
Qed.

Lemma submit_handler_outcome (l : loc) (user_input : pystr)
    (st st1 : State World) (o : Outcome) :
  truthy (strip user_input) = true ->
  run_travel_agent key R l (with_user_turn l user_input st)
  = (st1, Return (to_dict o)) ->
  submit_handler key R l true user_input st
  = (with_agent_turn l (render o) st1, Return tt).
Proof.
  intros Hguard Hrun. unfold submit_handler. rewrite Hguard.
  cbn [andb]. unfold bind at 1. unfold append at 1.
  fold (with_user_turn l user_input st).
  unfold bind at 1. rewrite Hrun.
  unfold bind at 1, getitem at 1. rewrite status_of_to_dict.
  destruct o as [t | r | r]; cbn [ret].
  - rewrite decide_True by reflexivity.
    unfold bind, getitem. cbn [to_dict]. rewrite dict2_lookup_snd.
    reflexivity.
  - rewrite decide_False by discriminate.
    rewrite decide_True by reflexivity.
    unfold bind, getitem. cbn [to_dict]. rewrite dict2_lookup_snd.
    reflexivity.
  - rewrite decide_False by discriminate.
    rewrite decide_False by discriminate.
    rewrite decide_True by reflexivity.
    unfold bind, getitem. cbn [to_dict]. rewrite dict2_lookup_snd.
    reflexivity.
Qed.
End Handler.

(** ** The three ways a turn ends *)

Lemma calls_during_app (h h' : loc -> list Msg) (log new : list Call) :
  calls_during (Build_State h log) (Build_State h' (log ++ new)) = new.
Proof. unfold calls_during. cbn [world]. apply drop_app_length. Qed.

(** C2. When the input gate's verdict is triggered, the turn makes that one
    request only: no request goes to the responder and none to the output
    gate, and the outcome is BlockedInput. *)
Theorem pre_gate_short_circuit (key : option pystr)
    (provider : list Call -> Call -> Reply) (chat_history : loc)
    (st : State (list Call)) (v : IllegalAndIrrelevant.t) :
  provider (world st) (pre_gate_call key (prompt (heap st chat_history)))
  = Structured (OutIllegal v) ->
  IllegalAndIrrelevant.is_request_irrelevant_illegal v = true ->
  exists st',
    run_turn key provider chat_history st
    = (st', Return (to_dict (BlockedInput input_block_reason)))
    /\ calls_during st st'
       = [pre_gate_call key (prompt (heap st chat_history))]
    /\ calls_to (py "travel booking agent") (calls_during st st') = 0%nat
    /\ calls_to (py "output guardrail agent") (calls_during st st') = 0%nat.
Proof.
  intros Hreply Htrig. destruct st as [h log]. cbn [world heap] in *.
  eexists. split.
  - unfold run_turn. rewrite run_travel_agent_unfold. cbn [world heap].
    rewrite travel_agent_run, illegal_irrelevant_run, Hreply.
    cbn [tripwire_triggered]. rewrite Htrig. reflexivity.
  - rewrite calls_during_app. repeat split; reflexivity.
Qed.

(** C3. When the input gate lets the prompt through, the responder
    replies with a text [T] and the output gate's verdict is triggered, the
    outcome is BlockedOutput with the fixed reason, whatever [T] is: the
    dict returned, and the agent turn the handler appends for it, are the
    same for every [T] and hold nothing of it. *)
Theorem post_gate_suppression (key : option pystr)
    (provider : list Call -> Call -> Reply) (chat_history : loc)
    (st : State (list Call)) (v : IllegalAndIrrelevant.t) (T : pystr)
    (w : ControlBookingCriteria.t) :
  let text := prompt (heap st chat_history) in
  let log1 := world st ++ [pre_gate_call key text] in
  let log2 := log1 ++ [responder_call key text] in
  provider (world st) (pre_gate_call key text) = Structured (OutIllegal v) ->
  IllegalAndIrrelevant.is_request_irrelevant_illegal v = false ->
  provider log1 (responder_call key text)
  = Structured (OutMessage {| MessageOutput.response := T |}) ->
  provider log2 (post_gate_call key T) = Structured (OutControl w) ->
  ControlBookingCriteria.is_response_violates w = true ->
  exists st',
    run_turn key provider chat_history st
    = (st', Return (to_dict (BlockedOutput output_block_reason)))
    /\ forall (st0 : State (list Call)) (user_input : pystr),
         truthy (strip user_input) = true ->
         st = with_user_turn chat_history user_input st0 ->
         submit_turn key provider chat_history true user_input st0
         = (with_agent_turn chat_history
              (py "Response Blocked: Blocked for safety (medical/legal advice or missing cost).")
              st',
            Return tt).
Proof.
  intros text log1 log2 Hpre Hpass Hresp Hpost Hviol.
  assert (Hrun : run_turn key provider chat_history st
                 = (Build_State (heap st) (log2 ++ [post_gate_call key T]),
                    Return (to_dict (BlockedOutput output_block_reason)))).
  { unfold run_turn. rewrite run_travel_agent_unfold. fold text.
    rewrite travel_agent_run, illegal_irrelevant_run, Hpre.
    cbn [tripwire_triggered]. rewrite Hpass.
    fold log1. rewrite responder_request, Hresp. fold log2.
    rewrite check_booking_run, Hpost.
    cbn [tripwire_triggered]. rewrite Hviol. reflexivity. }
  eexists. split; [exact Hrun |].
  intros st0 user_input Hguard Hst. unfold submit_turn.
  rewrite Hst in Hrun. unfold run_turn in Hrun.
  rewrite (submit_handler_outcome _ _ _ _ _ _ _ Hguard Hrun).
  rewrite <- Hst. reflexivity.
Qed.

(** C4. When neither gate is triggered, the outcome is Success and its
    response is the responder's text, character for character. *)
Theorem happy_path (key : option pystr)
    (provider : list Call -> Call -> Reply) (chat_history : loc)
    (st : State (list Call)) (v : IllegalAndIrrelevant.t) (T : pystr)
    (w : ControlBookingCriteria.t) :
  let text := prompt (heap st chat_history) in
  let log1 := world st ++ [pre_gate_call key text] in
  let log2 := log1 ++ [responder_call key text] in
  provider (world st) (pre_gate_call key text) = Structured (OutIllegal v) ->
  IllegalAndIrrelevant.is_request_irrelevant_illegal v = false ->
  provider log1 (responder_call key text)
  = Structured (OutMessage {| MessageOutput.response := T |}) ->
  provider log2 (post_gate_call key T) = Structured (OutControl w) ->
  ControlBookingCriteria.is_response_violates w = false ->
  exists st',
    run_turn key provider chat_history st = (st', Return (to_dict (Success T)))
    /\ to_dict (Success T) !! py "response" = Some T.
Proof.
  intros text log1 log2 Hpre Hpass Hresp Hpost Hok.
  destruct st as [h log]. cbn [world heap] in *.
  eexists. split.
  - unfold run_turn. rewrite run_travel_agent_unfold. cbn [world heap].
    fold text.
    rewrite travel_agent_run, illegal_irrelevant_run, Hpre.
    cbn [tripwire_triggered]. rewrite Hpass.
    fold log1. rewrite responder_request, Hresp. fold log2.
    rewrite check_booking_run, Hpost.
    cbn [tripwire_triggered]. rewrite Hok. reflexivity.
  - apply dict2_lookup_snd.
Qed.

(** ** The prompt *)

Lemma build_conversation_acc (acc : pystr) (h : list Msg) :
  foldl conversation_step acc h
  = acc ++ concat ((fun m => line m ++ [LF]) <$> h).
Proof.
  revert acc. induction h as [| m h IH]; intros acc; cbn [foldl fmap list_fmap concat].
  - now rewrite app_nil_r.
  - rewrite IH. unfold conversation_step, line.
    now rewrite <- !app_assoc.
Qed.

Lemma build_conversation_lines (h : list Msg) :
  build_conversation h = concat ((fun m => line m ++ [LF]) <$> h).
Proof. unfold build_conversation. now rewrite build_conversation_acc. Qed.

Lemma concat_lines_join (m : Msg) (h : list Msg) :
  concat ((fun m => line m ++ [LF]) <$> (m :: h))
  = join [LF] (line <$> (m :: h)) ++ [LF].
Proof.
  revert m. induction h as [| m' h IH]; intros m.
  - cbn. now rewrite app_nil_r.
  - change (concat ((fun m => line m ++ [LF]) <$> (m :: m' :: h)))
      with ((line m ++ [LF]) ++ concat ((fun m => line m ++ [LF]) <$> (m' :: h))).
    rewrite IH.
    change (join [LF] (line <$> (m :: m' :: h)))
      with (line m ++ [LF] ++ join [LF] (line <$> (m' :: h))).
    now rewrite <- !app_assoc.
Qed.

Lemma lstrip_visible (c : N) (s : pystr) :
  isspace c = false -> lstrip (c :: s) = c :: s.
Proof. intros H. cbn [lstrip]. now rewrite H. Qed.

Lemma rstrip_visible (s : pystr) (c : N) :
  isspace c = false -> rstrip (s ++ [c]) = s ++ [c].
Proof.
  intros H. unfold rstrip. rewrite rev_app_distr. cbn [rev app].
  rewrite lstrip_visible by exact H.
  cbn [rev]. now rewrite rev_involutive.
Qed.

Lemma rstrip_space (s : pystr) (c : N) :
  isspace c = true -> rstrip (s ++ [c]) = rstrip s.
Proof.
  intros H. unfold rstrip. rewrite rev_app_distr. cbn [rev app lstrip].
  now rewrite H.
Qed.

Lemma line_head (m : Msg) :
  exists c s, line m = c :: s /\ isspace c = false.
Proof.
  unfold line. destruct (decide _); eexists _, _; split; reflexivity.
Qed.

Lemma join_head (m : Msg) (h : list Msg) :
  exists c s, join [LF] (line <$> (m :: h)) = c :: s /\ isspace c = false.
Proof.
  destruct (line_head m) as (c & s & Hl & Hc).
  destruct h as [| m' h].
  - exists c, s. split; [exact Hl | exact Hc].
  - change (join [LF] (line <$> (m :: m' :: h)))
      with (line m ++ [LF] ++ join [LF] (line <$> (m' :: h))).
    rewrite Hl. eexists c, _. split; [reflexivity | exact Hc].
Qed.

Lemma join_last (h : list Msg) (m : Msg) (s : pystr) (c : N) :
  last h = Some m -> content m = s ++ [c] ->
  exists s', join [LF] (line <$> h) = s' ++ [c].
Proof.
  intros Hlast Hc. induction h as [| m0 h IH]; [discriminate |].
  destruct h as [| m1 h].
  - cbn in Hlast. injection Hlast as ->.
    cbn [fmap list_fmap join]. unfold line. rewrite Hc.
    eexists. now rewrite !app_assoc.
  - change (last (m0 :: m1 :: h)) with (last (m1 :: h)) in Hlast.
    destruct (IH Hlast) as [s' Hs'].
    change (join [LF] (line <$> (m0 :: m1 :: h)))
      with (line m0 ++ [LF] ++ join [LF] (line <$> (m1 :: h))).
    rewrite Hs'. eexists. now rewrite !app_assoc.
Qed.

Lemma strip_terminated (x : pystr) (c0 c : N) (s0 s : pystr) :
  x = c0 :: s0 -> isspace c0 = false ->
  x = s ++ [c] -> isspace c = false ->
  strip (x ++ [LF]) = x.
Proof.
  intros Hhead Hc0 Htail Hc. unfold strip.
  rewrite Hhead. cbn [app]. rewrite lstrip_visible by exact Hc0.
  change (c0 :: s0 ++ [LF]) with ((c0 :: s0) ++ [LF]). rewrite <- Hhead.
  rewrite rstrip_space by reflexivity.
  rewrite Htail. now apply rstrip_visible.
Qed.

(** The prompt of the specification's example, on the code. *)
Example prompt_example_joined :
  join [LF] (line <$> [Build_Msg (py "user") (py "a");
                       Build_Msg (py "agent") (py "b");
                       Build_Msg (py "user") (py "c")])
  = py "User: a" ++ [LF] ++ py "Agent: b" ++ [LF] ++ py "User: c".
Proof. reflexivity. Qed.

(** C5, as the specification states it, fails: the prompt is stripped of
    all trailing whitespace, not of the last line feed only.  A transcript
    whose only turn is the user's ["a "] gives the prompt ["User: a"]; the
    joined lines are ["User: a "]. *)
Lemma prompt_not_joined_lines :
  prompt [Build_Msg (py "user") (py "a ")] = py "User: a"
  /\ join [LF] (line <$> [Build_Msg (py "user") (py "a ")]) = py "User: a "
  /\ prompt [Build_Msg (py "user") (py "a ")]
     <> join [LF] (line <$> [Build_Msg (py "user") (py "a ")]).
Proof. split; [reflexivity | split; [reflexivity | discriminate]]. Qed.

(** C5, amended. The prompt is the turns' lines, each ended by a line feed,
    concatenated in transcript order and stripped of leading and trailing
    whitespace; whenever the last turn's content ends with a character that
    is not whitespace (or the transcript is empty), this is exactly the
    lines joined by line feeds. *)
Theorem prompt_serialization (chat_history : list Msg) :
  prompt chat_history
  = strip (concat ((fun m => line m ++ [LF]) <$> chat_history))
  /\ (ends_visibly chat_history = true ->
      prompt chat_history = join [LF] (line <$> chat_history)).
Proof.
  unfold prompt. rewrite build_conversation_lines. split; [reflexivity |].
  unfold ends_visibly. intros Hends.
  destruct chat_history as [| m h]; [reflexivity |].
  destruct (last (m :: h)) as [ml |] eqn:Hlast;
    [| apply last_None in Hlast; discriminate Hlast].
  destruct (last (content ml)) as [c |] eqn:Hc; [| discriminate Hends].
  apply last_Some in Hc as [s Hs].
  destruct (join_last _ _ _ _ Hlast Hs) as [s' Hs'].
  destruct (join_head m h) as (c0 & s0 & Hhead & Hc0).
  rewrite concat_lines_join.
  eapply strip_terminated; [exact Hhead | exact Hc0 | exact Hs' |].
  now destruct (isspace c).
Qed.

Lemma prompt_serialization_witness :
  ends_visibly [Build_Msg (py "user") (py "a"); Build_Msg (py "agent") (py "b");
                Build_Msg (py "user") (py "c")] = true
  /\ prompt [Build_Msg (py "user") (py "a"); Build_Msg (py "agent") (py "b");
             Build_Msg (py "user") (py "c")]
     = py "User: a" ++ [LF] ++ py "Agent: b" ++ [LF] ++ py "User: c".
Proof.
  split; [reflexivity |].
  rewrite (proj2 (prompt_serialization _)) by reflexivity.
  reflexivity.
Defined.

(** C6, as the specification states it, fails: the input gate trips with
    the rationale ["Travel to this destination is restricted."], and the
    reason of the outcome is the fixed sentence of line 154, not that
    rationale. *)
Lemma block_reason_not_rationale :
  let provider :=
    scripted (verdict_in true "Travel to this destination is restricted.")
             (reply_text "unused") (verdict_out false "unused") in
  provider [] (pre_gate_call None (prompt seoul))
  = verdict_in true "Travel to this destination is restricted."
  /\ exists st' out,
       run_turn None provider 0 (page seoul) = (st', Return out)
       /\ out !! py "status" = Some (py "blocked_input")
       /\ out !! py "reason" = Some (py "Illegal or irrelevant request.")
       /\ out !! py "reason"
          <> Some (py "Travel to this destination is restricted.").
Proof.
  split; [reflexivity |].
  eexists _, _. split; [vm_compute; reflexivity |].
  split; [vm_compute; reflexivity |].
  split; [vm_compute; reflexivity |].
  vm_compute. discriminate.
Qed.

(** C6, amended. For every turn blocked by a gate, the reason of the
    outcome is the fixed sentence of that gate, whatever the run of the
    gates produced; the block message the handler shows is the fixed
    notice followed by that sentence. *)
Theorem block_reason_is_fixed {World : Type} (key : option pystr)
    (R : Agent.t World -> pystr -> UserInfo -> M World RunResult)
    (chat_history : loc) (st st' : State World) (o : Outcome) :
  run_travel_agent key R chat_history st = (st', Return (to_dict o)) ->
  match o with
  | Success _ => True
  | BlockedInput reason =>
      reason = py "Illegal or irrelevant request."
      /\ render o = py "Request Blocked: Illegal or irrelevant request."
  | BlockedOutput reason =>
      reason = py "Blocked for safety (medical/legal advice or missing cost)."
      /\ render o
         = py "Response Blocked: Blocked for safety (medical/legal advice or missing cost)."
  end.
Proof.
  intros Hrun.
  destruct (run_travel_agent_cases key R chat_history st)
    as [w [[o' [Ho' Hreason]] | [e He]]]; rewrite Hrun in *;
    [| discriminate He].
  injection Ho' as _ Heq. apply to_dict_inj in Heq as <-.
  destruct o as [t | r | r]; [exact I | |]; subst r; split; reflexivity.
Qed.

Lemma block_reason_is_fixed_witness :
  exists st',
    run_turn None
      (scripted (verdict_in true "Travel to this destination is restricted.")
                (reply_text "unused") (verdict_out false "unused"))
      0 (page seoul)
    = (st', Return (to_dict (BlockedInput (py "Illegal or irrelevant request."))))
    /\ render (BlockedInput (py "Illegal or irrelevant request."))
       = py "Request Blocked: Illegal or irrelevant request.".
Proof.
  eexists. split; [vm_compute; reflexivity |].
  refine (proj2 (block_reason_is_fixed None
            (Runner.run (scripted
               (verdict_in true "Travel to this destination is restricted.")
               (reply_text "unused") (verdict_out false "unused")))
            0 (page seoul) _ (BlockedInput (py "Illegal or irrelevant request."))
            _)).
  vm_compute. reflexivity.
Defined.

(** C7. An exception of the run that is not one of the two tripwires is not
    caught: [run_travel_agent] raises it itself and returns no outcome. *)
Theorem other_failures_propagate {World : Type} (key : option pystr)
    (R : Agent.t World -> pystr -> UserInfo -> M World RunResult)
    (chat_history : loc) (st : State World) (w : World) (e : exn) :
  R (Travel_Booking_Assistant_Agent key R) (prompt (heap st chat_history))
    user_info (world st) = (w, Raise e) ->
  is_tripwire e = false ->
  run_travel_agent key R chat_history st = (Build_State (heap st) w, Raise e).
Proof.
  intros Hrun Hother. rewrite run_travel_agent_unfold, Hrun.
  now apply on_exception_other.
Qed.

Lemma other_failures_propagate_witness :
  exists w,
    run_turn None
      (scripted (verdict_in false "a travel request")
                (Failed NetworkFailure) (verdict_out false "unused"))
      0 (page seoul)
    = (Build_State (heap (page seoul)) w, Raise (ProviderError NetworkFailure)).
Proof.
  eexists.
  apply (other_failures_propagate None
           (Runner.run (scripted (verdict_in false "a travel request")
                                 (Failed NetworkFailure)
                                 (verdict_out false "unused")))
           0 (page seoul)).
  - vm_compute. reflexivity.
  - reflexivity.
Defined.

(** ** The transcript *)

Lemma submit_handler_completes {World : Type} (key : option pystr)
    (R : Agent.t World -> pystr -> UserInfo -> M World RunResult)
    (messages : loc) (user_input : pystr) (st st' : State World) (u : unit) :
  truthy (strip user_input) = true ->
  submit_handler key R messages true user_input st = (st', Return u) ->
  exists o : Outcome,
    heap st' messages = heap st messages ++ exchange user_input o
    /\ forall l, l <> messages -> heap st' l = heap st l.
Proof.
  intros Hguard Hsubmit.
  destruct (run_travel_agent_cases key R messages
              (with_user_turn messages user_input st))
    as [w [[o [Ho _]] | [e He]]].
  - rewrite (submit_handler_outcome _ _ _ _ _ _ _ Hguard Ho) in Hsubmit.
    injection Hsubmit as <- _. exists o.
    unfold with_agent_turn, with_user_turn, exchange. cbn [heap world]. split.
    + rewrite !fn_lookup_insert. now rewrite <- app_assoc.
    + intros l Hl. now rewrite !fn_lookup_insert_ne by congruence.
  - rewrite (submit_handler_raise _ _ _ _ _ _ _ Hguard He) in Hsubmit.
    discriminate Hsubmit.
Qed.

(** X8. After [n] submits that all complete, the transcript is the one
    before them followed by [n] user turns and [n] agent turns, alternating,
    in the order of the submits; no other list changes. *)
Lemma session_transcript {World : Type} (key : option pystr)
    (R : Agent.t World -> pystr -> UserInfo -> M World RunResult)
    (messages : loc) (inputs : list pystr) (st st' : State World) (u : unit) :
  Forall (fun user_input => truthy (strip user_input) = true) inputs ->
  session key R messages inputs st = (st', Return u) ->
  exists outcomes : list Outcome,
    length outcomes = length inputs
    /\ heap st' messages
       = heap st messages ++ concat (zip_with exchange inputs outcomes)
    /\ forall l, l <> messages -> heap st' l = heap st l.
Proof.
  intros Hguards. revert st.
  induction Hguards as [| user_input rest Hguard _ IH]; intros st Hrun.
  - cbn [session] in Hrun. injection Hrun as <- _.
    exists []. cbn. rewrite app_nil_r. now repeat split.
  - cbn [session] in Hrun. unfold bind in Hrun.
    destruct (submit_handler key R messages true user_input st)
      as [st1 [u1 | e]] eqn:Hsubmit; [| discriminate Hrun].
    destruct (submit_handler_completes _ _ _ _ _ _ _ Hguard Hsubmit)
      as [o [Hhere Hframe]].
    destruct (IH _ Hrun) as [outcomes [Hlen [Hthere Hframe']]].
    exists (o :: outcomes). split; [cbn; now rewrite Hlen |]. split.
    + rewrite Hthere, Hhere. cbn [zip_with concat]. now rewrite <- app_assoc.
    + intros l Hl. now rewrite Hframe', Hframe.
Qed.

(** C8. A submit whose text passes the guard of line 204 and whose turn
    completes leaves the session list as it was, followed by the user's
    turn and then one agent turn: the reply, or the block message. No other
    list of the store changes. *)
Theorem transcript_grows_by_two {World : Type} (key : option pystr)
    (R : Agent.t World -> pystr -> UserInfo -> M World RunResult)
    (messages : loc) (user_input : pystr) (st st' : State World) :
  truthy (strip user_input) = true ->
  submit_handler key R messages true user_input st = (st', Return tt) ->
  exists o : Outcome,
    heap st' messages
    = heap st messages
      ++ [{| role := py "user"; content := user_input |};
          {| role := py "agent"; content := render o |}]
    /\ forall l, l <> messages -> heap st' l = heap st l.
Proof.
  intros Hguard Hsubmit.
  exact (submit_handler_completes _ _ _ _ _ _ _ Hguard Hsubmit).
Qed.

Lemma transcript_grows_by_two_witness :
  exists st',
    submit_turn None
      (scripted (verdict_in false "a travel request")
                (reply_text "Flights from Tokyo to Seoul start at $120.")
                (verdict_out false "cost is shown"))
      0 true (py "Flights from Tokyo to Seoul?") (page [])
    = (st', Return tt)
    /\ exists o : Outcome,
         heap st' 0
         = heap (page []) 0
           ++ [{| role := py "user"; content := py "Flights from Tokyo to Seoul?" |};
               {| role := py "agent"; content := render o |}]
         /\ forall l, l <> 0 -> heap st' l = heap (page []) l.
Proof.
  eexists. split; [vm_compute; reflexivity |].
  apply (transcript_grows_by_two None
           (Runner.run (scripted (verdict_in false "a travel request")
              (reply_text "Flights from Tokyo to Seoul start at $120.")
              (verdict_out false "cost is shown")))
           0 (py "Flights from Tokyo to Seoul?") (page [])).
  - reflexivity.
  - vm_compute. reflexivity.
Defined.

(** The requests of one run of the travel agent all carry the profile of
    lines 127-133. *)
Lemma travel_agent_run_contexts (key : option pystr)
    (provider : list Call -> Call -> Reply) (text : pystr) (log : list Call) :
  exists new,
    (Runner.run provider
       (Travel_Booking_Assistant_Agent key (Runner.run provider))
       text user_info log).1 = log ++ new
    /\ Forall (fun c => call_context c = user_info) new.
Proof.
  rewrite travel_agent_run, illegal_irrelevant_run.
  destruct (provider log (pre_gate_call key text)) as [[v | v | v] | c];
    try (exists [pre_gate_call key text]; split;
         [reflexivity | repeat constructor]).
  cbn [tripwire_triggered].
  destruct (IllegalAndIrrelevant.is_request_irrelevant_illegal v);
    [exists [pre_gate_call key text]; split;
     [reflexivity | repeat constructor] |].
  rewrite responder_request.
  destruct (provider _ (responder_call key text)) as [[u | u | u] | c];
    try (exists [pre_gate_call key text; responder_call key text]; split;
         [now rewrite <- app_assoc | repeat constructor]).
  destruct u as [T]. rewrite check_booking_run.
  exists [pre_gate_call key text; responder_call key text; post_gate_call key T].
  split; [| repeat constructor].
  destruct (provider _ (post_gate_call key T)) as [[x | x | x] | c];
    try (cbn [fst]; now rewrite <- !app_assoc).
  cbn [tripwire_triggered].
  destruct (ControlBookingCriteria.is_response_violates x);
    cbn [fst]; now rewrite <- !app_assoc.
Qed.

(** C9. A call of [run_travel_agent] changes no list of the store, the
    chat history it reads included, whatever the runtime does; and every
    request the call leads to is given the profile of lines 127-133, field
    for field. *)
Theorem pipeline_only_reads :
  (forall (World : Type) (key : option pystr)
          (R : Agent.t World -> pystr -> UserInfo -> M World RunResult)
          (chat_history : loc) (st : State World),
      heap (run_travel_agent key R chat_history st).1 = heap st)
  /\ (forall (key : option pystr) (provider : list Call -> Call -> Reply)
             (chat_history : loc) (st : State (list Call)),
        exists new,
          world (run_turn key provider chat_history st).1 = world st ++ new
          /\ Forall (fun c => call_context c
                              = {| name := py "Mark Willson";
                                   age := 45;
                                   departure_city := py "Tokyo";
                                   budget := 180.4;
                                   travel_history :=
                                     [py "China"; py "UAE"; py "Iran";
                                      py "India"] |})
                    new).
Proof.
  split.
  - intros World key R chat_history st.
    destruct (run_travel_agent_cases key R chat_history st)
      as [w [[o [Ho _]] | [e He]]]; [rewrite Ho | rewrite He]; reflexivity.
  - intros key provider chat_history st.
    destruct (travel_agent_run_contexts key provider
                (prompt (heap st chat_history)) (world st))
      as [new [Hlog Hctx]].
    exists new. split; [| exact Hctx].
    unfold run_turn. rewrite run_travel_agent_unfold.
    destruct (Runner.run provider _ _ _ _) as [w [result | e]];
      cbn [fst] in Hlog.
    + destruct (final_output result); exact Hlog.
    + destruct e; exact Hlog.
Qed.

(** ** The guard of the submit handler *)

Lemma lstrip_blank (s : pystr) : forallb isspace s = true -> lstrip s = [].
Proof.
  induction s as [| c s IH]; [reflexivity |].
  cbn [forallb lstrip]. intros H. apply andb_prop in H as [Hc Hs].
  rewrite Hc. now apply IH.
Qed.

Lemma strip_blank (s : pystr) : forallb isspace s = true -> strip s = [].
Proof. intros H. unfold strip. now rewrite lstrip_blank. Qed.

(** C10. A submit whose text is empty or whitespace only does nothing: the
    handler returns with the store and the state of the runtime exactly as
    they were, so no turn is appended and no request is made. *)
Theorem blank_submit_is_ignored {World : Type} (key : option pystr)
    (R : Agent.t World -> pystr -> UserInfo -> M World RunResult)
    (messages : loc) (submit : bool) (user_input : pystr) (st : State World) :
  forallb isspace user_input = true ->
  submit_handler key R messages submit user_input st = (st, Return tt).
Proof.
  intros Hblank. apply submit_handler_skip.
  rewrite strip_blank by exact Hblank. now destruct submit.
Qed.

Lemma blank_submit_is_ignored_witness :
  forallb isspace (py "   ") = true
  /\ submit_turn None
       (scripted (verdict_in false "unused") (reply_text "unused")
                 (verdict_out false "unused"))
       0 true (py "   ") (page seoul)
     = (page seoul, Return tt).
Proof.
  split; [reflexivity |].
  apply (blank_submit_is_ignored None
           (Runner.run (scripted (verdict_in false "unused")
                          (reply_text "unused") (verdict_out false "unused")))
           0 true (py "   ") (page seoul)).
  reflexivity.
Defined.

(** ** The specification's examples, run *)

Lemma run_travel_agent_one_outcome_witness :
  exists! o : Outcome,
    to_dict (Success (py "Flights from Tokyo to Seoul start at $120."))
    = to_dict o.
Proof.
  apply (run_travel_agent_one_outcome None
           (Runner.run (scripted (verdict_in false "a travel request")
              (reply_text "Flights from Tokyo to Seoul start at $120.")
              (verdict_out false "cost is shown")))
           0 (page seoul)
           (Build_State (heap (page seoul))
              [pre_gate_call None (prompt seoul);
               responder_call None (prompt seoul);
               post_gate_call None
                 (py "Flights from Tokyo to Seoul start at $120.")])).
  vm_compute. reflexivity.
Defined.

Lemma pre_gate_short_circuit_witness :
  exists st',
    run_turn None
      (scripted (verdict_in true "Travel to this destination is restricted.")
                (reply_text "unused") (verdict_out false "unused"))
      0 (page seoul)
    = (st', Return (to_dict (BlockedInput input_block_reason)))
    /\ calls_during (page seoul) st' = [pre_gate_call None (prompt seoul)]
    /\ calls_to (py "travel booking agent") (calls_during (page seoul) st') = 0%nat
    /\ calls_to (py "output guardrail agent") (calls_during (page seoul) st') = 0%nat.
Proof.
  apply (pre_gate_short_circuit None
           (scripted (verdict_in true "Travel to this destination is restricted.")
                     (reply_text "unused") (verdict_out false "unused"))
           0 (page seoul)
           {| IllegalAndIrrelevant.is_request_irrelevant_illegal := true;
              IllegalAndIrrelevant.reasoning :=
                py "Travel to this destination is restricted." |}).
  - reflexivity.
  - reflexivity.
Defined.

Lemma post_gate_suppression_witness :
  exists st',
    run_turn None
      (scripted (verdict_in false "a travel request")
                (reply_text "Your booking is confirmed.")
                (verdict_out true "confirms a booking without its cost"))
      0 (page seoul)
    = (st', Return (to_dict (BlockedOutput output_block_reason)))
    /\ forall (st0 : State (list Call)) (user_input : pystr),
         truthy (strip user_input) = true ->
         page seoul = with_user_turn 0 user_input st0 ->
         submit_turn None
           (scripted (verdict_in false "a travel request")
                     (reply_text "Your booking is confirmed.")
                     (verdict_out true "confirms a booking without its cost"))
           0 true user_input st0
         = (with_agent_turn 0
              (py "Response Blocked: Blocked for safety (medical/legal advice or missing cost).")
              st',
            Return tt).
Proof.
  apply (post_gate_suppression None
           (scripted (verdict_in false "a travel request")
                     (reply_text "Your booking is confirmed.")
                     (verdict_out true "confirms a booking without its cost"))
           0 (page seoul)
           {| IllegalAndIrrelevant.is_request_irrelevant_illegal := false;
              IllegalAndIrrelevant.reasoning := py "a travel request" |}
           (py "Your booking is confirmed.")
           {| ControlBookingCriteria.is_response_violates := true;
              ControlBookingCriteria.reasoning :=
                py "confirms a booking without its cost" |});
    reflexivity.
Defined.

Lemma happy_path_witness :
  exists st',
    run_turn None
      (scripted (verdict_in false "a travel request")
                (reply_text "Flights from Tokyo to Seoul start at $120.")
                (verdict_out false "cost is shown"))
      0 (page seoul)
    = (st', Return (to_dict
                      (Success (py "Flights from Tokyo to Seoul start at $120."))))
    /\ to_dict (Success (py "Flights from Tokyo to Seoul start at $120."))
         !! py "response"
       = Some (py "Flights from Tokyo to Seoul start at $120.").
Proof.
  apply (happy_path None
           (scripted (verdict_in false "a travel request")
                     (reply_text "Flights from Tokyo to Seoul start at $120.")
                     (verdict_out false "cost is shown"))
           0 (page seoul)
           {| IllegalAndIrrelevant.is_request_irrelevant_illegal := false;
              IllegalAndIrrelevant.reasoning := py "a travel request" |}
           (py "Flights from Tokyo to Seoul start at $120.")
           {| ControlBookingCriteria.is_response_violates := false;
              ControlBookingCriteria.reasoning := py "cost is shown" |});
    reflexivity.
Defined.

(** * Further properties of the code *)

(** ** Stripping *)

Lemma lstrip_app_visible (a b : pystr) :
  lstrip a <> [] -> lstrip (a ++ b) = lstrip a ++ b.
Proof.
  induction a as [| c a IH]; intros Hne; [now contradict Hne |].
  cbn [app lstrip] in *. destruct (isspace c); [now apply IH | reflexivity].
Qed.

Lemma lstrip_suffix (s : pystr) : exists w, s = w ++ lstrip s.
Proof.
  induction s as [| c s [w Hw]]; [now exists [] |].
  cbn [lstrip]. destruct (isspace c).
  - exists (c :: w). cbn [app]. now rewrite <- Hw.
  - now exists [].
Qed.

Lemma lstrip_visible_iff (s : pystr) :
  has_visible s = true <-> lstrip s <> [].
Proof.
  unfold has_visible. induction s as [| c s IH]; cbn [existsb lstrip].
  - split; [discriminate | congruence].
  - destruct (isspace c); cbn [negb orb]; [exact IH |].
    split; [discriminate | reflexivity].
Qed.

Lemma has_visible_app (a b : pystr) :
  has_visible (a ++ b) = has_visible a || has_visible b.
Proof. unfold has_visible. apply existsb_app. Qed.

Lemma has_visible_rev (s : pystr) : has_visible (rev s) = has_visible s.
Proof.
  induction s as [| c s IH]; [reflexivity |].
  cbn [rev]. rewrite has_visible_app, IH.
  unfold has_visible at 2 3. cbn [existsb].
  rewrite orb_false_r. apply orb_comm.
Qed.

Lemma has_visible_lstrip (s : pystr) : has_visible (lstrip s) = has_visible s.
Proof.
  induction s as [| c s IH]; [reflexivity |].
  cbn [lstrip]. destruct (isspace c) eqn:Hc; [| reflexivity].
  rewrite IH. unfold has_visible. cbn [existsb]. now rewrite Hc.
Qed.

Lemma rstrip_app_visible (x y : pystr) :
  has_visible y = true -> rstrip (x ++ y) = x ++ rstrip y.
Proof.
  intros Hy. unfold rstrip. rewrite rev_app_distr.
  rewrite lstrip_app_visible
    by (apply lstrip_visible_iff; now rewrite has_visible_rev).
  now rewrite rev_app_distr, rev_involutive.
Qed.

Lemma rstrip_prefix (s : pystr) : exists t, s = rstrip s ++ t.
Proof.
  destruct (lstrip_suffix (rev s)) as [w Hw]. exists (rev w).
  unfold rstrip. rewrite <- rev_app_distr, <- Hw. now rewrite rev_involutive.
Qed.

Lemma rstrip_visible_iff (s : pystr) :
  has_visible s = true <-> rstrip s <> [].
Proof.
  unfold rstrip. rewrite <- has_visible_rev, lstrip_visible_iff.
  split; intros H Hnil; apply H.
  - apply (f_equal (@rev N)) in Hnil. now rewrite rev_involutive in Hnil.
  - now rewrite Hnil.
Qed.

(** The guard of line 204 on the text: it has a character that is not
    whitespace. *)
Lemma truthy_strip (s : pystr) : truthy (strip s) = has_visible s.
Proof.
  unfold strip. rewrite <- (has_visible_lstrip s).
  destruct (has_visible (lstrip s)) eqn:Hv.
  - apply rstrip_visible_iff in Hv. now destruct (rstrip (lstrip s)).
  - destruct (rstrip (lstrip s)) eqn:Hr; [reflexivity |].
    assert (Hne : rstrip (lstrip s) <> []) by (now rewrite Hr).
    apply rstrip_visible_iff in Hne. congruence.
Qed.

Lemma strip_head_visible (c : N) (s : pystr) :
  isspace c = false -> strip (c :: s) = rstrip (c :: s).
Proof. intros Hc. unfold strip. now rewrite lstrip_visible. Qed.

(** ** More on the prompt *)

Lemma build_conversation_app (h1 h2 : list Msg) :
  build_conversation (h1 ++ h2) = build_conversation h1 ++ build_conversation h2.
Proof.
  rewrite !build_conversation_lines, fmap_app. apply concat_app.
Qed.

Lemma build_conversation_head (m : Msg) (h : list Msg) :
  exists c s, build_conversation (m :: h) = c :: s /\ isspace c = false.
Proof.
  rewrite build_conversation_lines. cbn [fmap list_fmap concat].
  destruct (line_head m) as (c & s & Hl & Hc). rewrite Hl.
  eexists c, _. split; [reflexivity | exact Hc].
Qed.

Lemma prompt_rstrip (h : list Msg) : prompt h = rstrip (build_conversation h).
Proof.
  unfold prompt. destruct h as [| m h]; [reflexivity |].
  destruct (build_conversation_head m h) as (c & s & -> & Hc).
  now apply strip_head_visible.
Qed.

Lemma build_conversation_visible (m : Msg) (h : list Msg) :
  has_visible (build_conversation (m :: h)) = true.
Proof.
  destruct (build_conversation_head m h) as (c & s & -> & Hc).
  unfold has_visible. cbn [existsb]. now rewrite Hc.
Qed.

Lemma lstrip_head (s r : pystr) (c : N) :
  lstrip s = c :: r -> isspace c = false.
Proof.
  induction s as [| d s IH]; [discriminate |].
  cbn [lstrip]. destruct (isspace d) eqn:Hd; [exact IH |].
  intros [= <- _]. exact Hd.
Qed.

(** X1. The prompt is the empty string exactly when the history is empty;
    otherwise it neither begins nor ends with a whitespace character. *)
Theorem prompt_shape (chat_history : list Msg) :
  (prompt chat_history = [] <-> chat_history = [])
  /\ (forall c s, prompt chat_history = c :: s -> isspace c = false)
  /\ (forall s c, prompt chat_history = s ++ [c] -> isspace c = false).
Proof.
  rewrite prompt_rstrip. destruct chat_history as [| m h].
  - split; [split; reflexivity |].
    split; [discriminate |]. intros s c H. now destruct s.
  - pose proof (build_conversation_visible m h) as Hv.
    destruct (build_conversation_head m h) as (c0 & s0 & Hb & Hc0).
    split; [| split].
    + split; [| discriminate]. intros Hnil.
      apply rstrip_visible_iff in Hv. contradiction.
    + intros c s Hr. destruct (rstrip_prefix (build_conversation (m :: h)))
        as [t Ht]. rewrite Hr, Hb in Ht. now injection Ht as -> _.
    + intros s c Hr. unfold rstrip in Hr.
      apply (f_equal (@rev N)) in Hr.
      rewrite rev_involutive, rev_app_distr in Hr. cbn [rev app] in Hr.
      exact (lstrip_head _ _ _ Hr).
Qed.

(** X2. On a submit that passes the guard of line 204, the prompt sent to
    the runtime is the whole conversation so far, every earlier turn with
    its line feed, followed by ["User: "] and the text typed, which loses
    its trailing whitespace and nothing else. *)
Theorem prompt_on_submit (history : list Msg) (user_input : pystr) :
  truthy (strip user_input) = true ->
  prompt (history ++ [{| role := py "user"; content := user_input |}])
  = build_conversation history ++ py "User: " ++ rstrip user_input.
Proof.
  rewrite truthy_strip. intros Hv.
  rewrite prompt_rstrip, build_conversation_app.
  change (build_conversation [{| role := py "user"; content := user_input |}])
    with (py "User: " ++ user_input ++ [LF]).
  rewrite (app_assoc (build_conversation history)).
  rewrite (app_assoc (build_conversation history ++ py "User: ")).
  rewrite rstrip_space by reflexivity.
  rewrite rstrip_app_visible by exact Hv.
  now rewrite <- app_assoc.
Qed.

Lemma prompt_on_submit_witness :
  prompt ([{| role := py "user"; content := py "hi" |};
           {| role := py "agent"; content := py "Hello! " |}]
          ++ [{| role := py "user"; content := py "  to Seoul  " |}])
  = py "User: hi" ++ [LF] ++ py "Agent: Hello! " ++ [LF]
    ++ py "User:   to Seoul".
Proof.
  rewrite (prompt_on_submit
             [{| role := py "user"; content := py "hi" |};
              {| role := py "agent"; content := py "Hello! " |}]
             (py "  to Seoul  ")) by reflexivity.
  reflexivity.
Defined.

(** X3. The prompt only ever grows at its end: the prompt of a history is
    a prefix of the prompt of the same history with more turns after it. *)
Theorem prompt_extends (history more : list Msg) :
  exists tail, prompt (history ++ more) = prompt history ++ tail.
Proof.
  destruct more as [| m more].
  - exists []. now rewrite !app_nil_r.
  - rewrite !prompt_rstrip, build_conversation_app.
    rewrite rstrip_app_visible by apply build_conversation_visible.
    destruct (rstrip_prefix (build_conversation history)) as [t Ht].
    exists (t ++ rstrip (build_conversation (m :: more))).
    rewrite app_assoc. now rewrite <- Ht.
Qed.

(** X4. The prompt does not tell a turn from text that looks like one: a
    single user message holding a line feed and then ["Agent: "] gives the
    same prompt as a user turn followed by a real agent turn. *)
Theorem prompt_forged_turn (a b : pystr) :
  [{| role := py "user"; content := a ++ [LF] ++ py "Agent: " ++ b |}]
  <> [{| role := py "user"; content := a |};
      {| role := py "agent"; content := b |}]
  /\ prompt [{| role := py "user"; content := a ++ [LF] ++ py "Agent: " ++ b |}]
     = prompt [{| role := py "user"; content := a |};
               {| role := py "agent"; content := b |}].
Proof.
  split; [discriminate |].
  unfold prompt. f_equal. rewrite !build_conversation_lines.
  cbn [fmap list_fmap concat]. unfold line. cbn [role content].
  rewrite decide_True by reflexivity. rewrite decide_False by discriminate.
  rewrite !app_nil_r, <- !app_assoc.
  change (py "Agent: " ++ b ++ [LF]) with (py "Agent" ++ py ": " ++ b ++ [LF]).
  reflexivity.
Qed.

(** ** More on the submit handler *)

Lemma with_user_turn_here {World : Type} (l : loc) (user_input : pystr)
    (st : State World) :
  heap (with_user_turn l user_input st) l
  = heap st l ++ [{| role := py "user"; content := user_input |}].
Proof. unfold with_user_turn. cbn [heap]. apply fn_lookup_insert. Qed.

Lemma with_user_turn_elsewhere {World : Type} (l l' : loc)
    (user_input : pystr) (st : State World) :
  l' <> l -> heap (with_user_turn l user_input st) l' = heap st l'.
Proof.
  intros Hne. unfold with_user_turn. cbn [heap].
  now apply fn_lookup_insert_ne.
Qed.

(** X5. What a submit that passes the guard does, by what the run of the
    travel agent gives on the prompt of the history with the new message:
    a reply is appended as it is, after the user's turn; a tripwire appends
    its fixed block message; any other exception leaves the user's turn
    appended with no agent turn after it, and goes on to the caller. *)
Theorem submit_handler_by_run {World : Type} (key : option pystr)
    (R : Agent.t World -> pystr -> UserInfo -> M World RunResult)
    (messages : loc) (user_input : pystr) (st : State World)
    (w : World) (r : Res RunResult) :
  truthy (strip user_input) = true ->
  R (Travel_Booking_Assistant_Agent key R)
    (prompt (heap st messages
             ++ [{| role := py "user"; content := user_input |}]))
    user_info (world st) = (w, r) ->
  submit_handler key R messages true user_input st
  = let turned :=
      Build_State
        (<[messages := heap st messages
                       ++ [{| role := py "user"; content := user_input |}]]>
           (heap st)) w in
    match r with
    | Return result =>
        match final_output result with
        | OutMessage o =>
            (with_agent_turn messages (MessageOutput.response o) turned,
             Return tt)
        | _ => (turned, Raise AttributeError)
        end
    | Raise (InputGuardrailTripwireTriggered _) =>
        (with_agent_turn messages
           (py "Request Blocked: Illegal or irrelevant request.") turned,
         Return tt)
    | Raise (OutputGuardrailTripwireTriggered _) =>
        (with_agent_turn messages
           (py "Response Blocked: Blocked for safety (medical/legal advice or missing cost).")
           turned,
         Return tt)
    | Raise e => (turned, Raise e)
    end.
Proof.
  intros Hguard Hrun.
  pose proof (run_travel_agent_unfold key R messages
                (with_user_turn messages user_input st)) as Hturn.
  rewrite with_user_turn_here in Hturn.
  change (world (with_user_turn messages user_input st)) with (world st)
    in Hturn.
  rewrite Hrun in Hturn. cbv zeta.
  destruct r as [result | e].
  - destruct (final_output result) as [v | v | v];
      try exact (submit_handler_raise _ _ _ _ _ _ _ Hguard Hturn).
    exact (submit_handler_outcome _ _ _ _ _ _ _ Hguard Hturn).
  - destruct e;
      try exact (submit_handler_raise _ _ _ _ _ _ _ Hguard Hturn).
    + exact (submit_handler_outcome _ _ _ _ _ _
               (BlockedInput input_block_reason) Hguard Hturn).
    + exact (submit_handler_outcome _ _ _ _ _ _
               (BlockedOutput output_block_reason) Hguard Hturn).
Qed.

Lemma submit_handler_by_run_witness :
  submit_turn None
    (scripted (verdict_in false "a travel request")
              (reply_text "Flights from Tokyo to Seoul start at $120.")
              (verdict_out false "cost is shown"))
    0 true (py "And to Busan?") (page seoul)
  = (with_agent_turn 0 (py "Flights from Tokyo to Seoul start at $120.")
       (Build_State
          (<[0 := seoul ++ [{| role := py "user";
                               content := py "And to Busan?" |}]]>
             (heap (page seoul)))
          [pre_gate_call None
             (prompt (seoul ++ [{| role := py "user";
                                   content := py "And to Busan?" |}]));
           responder_call None
             (prompt (seoul ++ [{| role := py "user";
                                   content := py "And to Busan?" |}]));
           post_gate_call None
             (py "Flights from Tokyo to Seoul start at $120.")]),
     Return tt).
Proof.
  exact (submit_handler_by_run None
           (Runner.run (scripted (verdict_in false "a travel request")
              (reply_text "Flights from Tokyo to Seoul start at $120.")
              (verdict_out false "cost is shown")))
           0 (py "And to Busan?") (page seoul) _
           (Return {| final_output :=
                        OutMessage {| MessageOutput.response :=
                          py "Flights from Tokyo to Seoul start at $120." |} |})
           eq_refl eq_refl).
Defined.

Lemma submit_handler_raise_inv {World : Type} (key : option pystr)
    (R : Agent.t World -> pystr -> UserInfo -> M World RunResult)
    (messages : loc) (submit : bool) (user_input : pystr)
    (st st' : State World) (e : exn) :
  submit_handler key R messages submit user_input st = (st', Raise e) ->
  submit = true
  /\ run_travel_agent key R messages (with_user_turn messages user_input st)
     = (st', Raise e)
  /\ heap st' messages
     = heap st messages ++ [{| role := py "user"; content := user_input |}]
  /\ forall l, l <> messages -> heap st' l = heap st l.
Proof.
  intros Hraise.
  destruct (submit && truthy (strip user_input)) eqn:Hguard.
  - apply andb_prop in Hguard as [-> Hguard].
    destruct (run_travel_agent_cases key R messages
                (with_user_turn messages user_input st))
      as [w [[o [Ho _]] | [e' He']]].
    + rewrite (submit_handler_outcome _ _ _ _ _ _ _ Hguard Ho) in Hraise.
      discriminate Hraise.
    + rewrite (submit_handler_raise _ _ _ _ _ _ _ Hguard He') in Hraise.
      injection Hraise as <- <-.
      split; [reflexivity |]. split; [exact He' |]. cbn [heap]. split.
      * apply with_user_turn_here.
      * intros l Hl. now apply with_user_turn_elsewhere.
  - rewrite (submit_handler_skip _ _ _ _ _ _ Hguard) in Hraise.
    discriminate Hraise.
Qed.

(** X6. The handler raises nothing of its own: when it ends with an
    exception, the run of [run_travel_agent] on the history with the new
    message ended with that exception, the session list then holds the
    user's message as its last turn, with no agent turn for it, and no
    other list has changed. *)
Theorem submit_handler_failure {World : Type} (key : option pystr)
    (R : Agent.t World -> pystr -> UserInfo -> M World RunResult)
    (messages : loc) (submit : bool) (user_input : pystr)
    (st st' : State World) (e : exn) :
  submit_handler key R messages submit user_input st = (st', Raise e) ->
  submit = true
  /\ run_travel_agent key R messages (with_user_turn messages user_input st)
     = (st', Raise e)
  /\ heap st' messages
     = heap st messages ++ [{| role := py "user"; content := user_input |}]
  /\ forall l, l <> messages -> heap st' l = heap st l.
Proof. apply submit_handler_raise_inv. Qed.

Lemma submit_handler_failure_witness :
  exists st',
    submit_turn None
      (scripted (verdict_in false "a travel request")
                (Failed RateLimit) (verdict_out false "unused"))
      0 true (py "And to Busan?") (page seoul)
    = (st', Raise (ProviderError RateLimit))
    /\ heap st' 0
       = seoul ++ [{| role := py "user"; content := py "And to Busan?" |}].
Proof.
  eexists. split; [vm_compute; reflexivity |].
  refine (proj1 (proj2 (proj2 (submit_handler_failure None
            (Runner.run (scripted (verdict_in false "a travel request")
                                  (Failed RateLimit)
                                  (verdict_out false "unused")))
            0 true (py "And to Busan?") (page seoul) _
            (ProviderError RateLimit) _)))).
  vm_compute. reflexivity.
Defined.

(** X7. The handler appends the user's message exactly when the button was
    pressed and the text has a character that is not whitespace; in every
    other case it leaves the whole state as it was. *)
Theorem submit_appends_iff {World : Type} (key : option pystr)
    (R : Agent.t World -> pystr -> UserInfo -> M World RunResult)
    (messages : loc) (submit : bool) (user_input : pystr) (st : State World) :
  ((exists rest,
       heap (submit_handler key R messages submit user_input st).1 messages
       = heap st messages
         ++ {| role := py "user"; content := user_input |} :: rest)
   <-> submit = true /\ has_visible user_input = true)
  /\ (submit && has_visible user_input = false ->
      submit_handler key R messages submit user_input st = (st, Return tt)).
Proof.
  rewrite <- truthy_strip.
  assert (Hskip : submit && truthy (strip user_input) = false ->
                  submit_handler key R messages submit user_input st
                  = (st, Return tt)) by apply submit_handler_skip.
  split; [| exact Hskip]. split.
  - intros [rest Hrest].
    destruct (submit && truthy (strip user_input)) eqn:Hguard;
      [now apply andb_prop in Hguard |].
    rewrite (Hskip eq_refl) in Hrest. cbn [fst] in Hrest.
    apply (f_equal length) in Hrest. rewrite length_app in Hrest.
    cbn [length] in Hrest. lia.
  - intros [-> Hguard].
    destruct (run_travel_agent_cases key R messages
                (with_user_turn messages user_input st))
      as [w [[o [Ho _]] | [e He]]].
    + rewrite (submit_handler_outcome _ _ _ _ _ _ _ Hguard Ho).
      exists [{| role := py "agent"; content := render o |}].
      unfold with_agent_turn. cbn [fst heap].
      rewrite fn_lookup_insert, with_user_turn_here.
      now rewrite <- app_assoc.
    + rewrite (submit_handler_raise _ _ _ _ _ _ _ Hguard He).
      exists []. cbn [fst heap]. apply with_user_turn_here.
Qed.

Lemma submit_appends_iff_witness :
  submit_turn None
    (scripted (verdict_in false "unused") (reply_text "unused")
              (verdict_out false "unused"))
    0 false (py "Flights to Busan?") (page seoul)
  = (page seoul, Return tt).
Proof.
  apply (proj2 (submit_appends_iff None
           (Runner.run (scripted (verdict_in false "unused")
                          (reply_text "unused") (verdict_out false "unused")))
           0 false (py "Flights to Busan?") (page seoul))).
  reflexivity.
Defined.

Lemma session_transcript_witness :
  exists st' (outcomes : list Outcome),
    session None
      (Runner.run (scripted (verdict_in false "a travel request")
                     (reply_text "Flights from Tokyo to Seoul start at $120.")
                     (verdict_out false "cost is shown")))
      0 [py "Flights from Tokyo to Seoul?"; py "And back?"] (page [])
    = (st', Return tt)
    /\ length outcomes = 2%nat
    /\ heap st' 0
       = heap (page []) 0
         ++ concat (zip_with exchange
                      [py "Flights from Tokyo to Seoul?"; py "And back?"]
                      outcomes).
Proof.
  eexists.
  assert (Hrun : session None
            (Runner.run (scripted (verdict_in false "a travel request")
                           (reply_text "Flights from Tokyo to Seoul start at $120.")
                           (verdict_out false "cost is shown")))
            0 [py "Flights from Tokyo to Seoul?"; py "And back?"] (page [])
          = (_, Return tt)) by (vm_compute; reflexivity).
  destruct (session_transcript None _ 0
              [py "Flights from Tokyo to Seoul?"; py "And back?"]
              (page []) _ tt
              ltac:(repeat constructor) Hrun)
    as [outcomes [Hlen [Hheap _]]].
  exists outcomes. split; [exact Hrun |]. split; [exact Hlen | exact Hheap].
Defined.

(** ** The page across runs of the script *)

Section Runs.
Context {World : Type}.
Variable key : option pystr.
Variable R : Agent.t World -> pystr -> UserInfo -> M World RunResult.

Lemma display_draws (history : list Msg) (pg : Page World) :
  display history pg
  = (Build_Page (session_state pg) (next_loc pg)
                (screen pg ++ (block_of <$> history)) (store pg),
     Return tt).
Proof.
  revert pg. induction history as [| m h IH]; intros [ss nl sc st].
  - cbn. now rewrite app_nil_r.
  - cbn [display]. unfold bind, markdown. cbn [session_state next_loc screen store].
    rewrite IH. cbn [session_state next_loc screen store fmap list_fmap].
    now rewrite <- app_assoc.
Qed.

(** One run on a page that already has its list. *)
Lemma script_run_known (submit : bool) (user_input : pystr) (pg : Page World)
    (l : loc) :
  session_state pg !! py "messages" = Some l ->
  script_run key R submit user_input pg
  = (Build_Page (session_state pg) (next_loc pg)
                (block_of <$> heap (store pg) l)
                (submit_handler key R l submit user_input (store pg)).1,
     (submit_handler key R l submit user_input (store pg)).2).
Proof.
  intros Hkey. destruct pg as [ss nl sc st]. cbn [session_state] in Hkey.
  unfold script_run, bind, init_session, session_messages, in_store, read_list.
  repeat (rewrite ?Hkey, ?display_draws;
          cbn [session_state next_loc screen store app]).
  now destruct (submit_handler key R l submit user_input st) as [st' r].
Qed.

Lemma init_session_known (pg : Page World) (l : loc) :
  session_state pg !! py "messages" = Some l ->
  init_session pg = (pg, Return tt).
Proof. intros Hkey. unfold init_session. now rewrite Hkey. Qed.

Lemma init_session_binds (pg : Page World) :
  session_state pg !! py "messages" = None ->
  session_state (init_session pg).1 !! py "messages" = Some (next_loc pg)
  /\ heap (store (init_session pg).1) (next_loc pg) = []
  /\ (forall l, l <> next_loc pg ->
        heap (store (init_session pg).1) l = heap (store pg) l)
  /\ world (store (init_session pg).1) = world (store pg).
Proof.
  intros Hkey. unfold init_session. rewrite Hkey.
  cbn [fst session_state store heap world].
  split; [apply lookup_insert_eq |]. split; [apply fn_lookup_insert |].
  split; [| reflexivity].
  intros l Hl. now apply fn_lookup_insert_ne.
Qed.

Lemma script_run_init (submit : bool) (user_input : pystr) (pg : Page World) :
  script_run key R submit user_input pg
  = script_run key R submit user_input (init_session pg).1.
Proof.
  destruct (session_state pg !! py "messages") as [l |] eqn:Hkey.
  - now rewrite (init_session_known pg l Hkey).
  - destruct pg as [ss nl sc st]. cbn [session_state] in Hkey.
    unfold init_session. cbn [session_state next_loc screen store].
    rewrite Hkey. cbn [fst].
    unfold script_run. unfold bind at 1 7.
    cbn [session_state next_loc screen store].
    unfold bind at 1 6. unfold init_session.
    cbn [session_state next_loc screen store].
    rewrite Hkey, lookup_insert_eq. reflexivity.
Qed.

Lemma submit_handler_extends (l : loc) (submit : bool) (user_input : pystr)
    (st : State World) :
  exists more,
    heap (submit_handler key R l submit user_input st).1 l = heap st l ++ more.
Proof.
  destruct (submit && truthy (strip user_input)) eqn:Hguard.
  - apply andb_prop in Hguard as [-> Hguard].
    destruct (run_travel_agent_cases key R l (with_user_turn l user_input st))
      as [w [[o [Ho _]] | [e He]]].
    + rewrite (submit_handler_outcome _ _ _ _ _ _ _ Hguard Ho).
      eexists. unfold with_agent_turn. cbn [fst heap].
      rewrite fn_lookup_insert, with_user_turn_here.
      now rewrite <- app_assoc.
    + rewrite (submit_handler_raise _ _ _ _ _ _ _ Hguard He).
      eexists. cbn [fst heap]. apply with_user_turn_here.
  - rewrite (submit_handler_skip _ _ _ _ _ _ Hguard).
    exists []. cbn [fst]. now rewrite app_nil_r.
Qed.

Lemma script_run_keeps (submit : bool) (user_input : pystr) (pg : Page World)
    (l : loc) :
  session_state pg !! py "messages" = Some l ->
  session_state (script_run key R submit user_input pg).1 !! py "messages"
  = Some l
  /\ next_loc (script_run key R submit user_input pg).1 = next_loc pg
  /\ exists more,
       heap (store (script_run key R submit user_input pg).1) l
       = heap (store pg) l ++ more.
Proof.
  intros Hkey. rewrite (script_run_known _ _ _ _ Hkey).
  cbn [fst session_state next_loc store].
  split; [exact Hkey |]. split; [reflexivity |].
  apply submit_handler_extends.
Qed.

Lemma visit_keeps (submit : bool) (user_input : pystr) (pg : Page World)
    (l : loc) :
  session_state pg !! py "messages" = Some l ->
  session_state (visit key R submit user_input pg).1 !! py "messages" = Some l
  /\ next_loc (visit key R submit user_input pg).1 = next_loc pg
  /\ exists more,
       heap (store (visit key R submit user_input pg).1) l
       = heap (store pg) l ++ more.
Proof.
  intros Hkey.
  destruct (script_run_keeps submit user_input pg l Hkey)
    as [Hkey1 [Hnext1 [more1 Hmore1]]].
  unfold visit, bind.
  destruct (script_run key R submit user_input pg) as [pg1 [u | e]];
    cbn [fst] in *; [| now eauto].
  destruct (submit && truthy (strip user_input)); [| cbn; now eauto].
  destruct (script_run_keeps false [] pg1 l Hkey1)
    as [Hkey2 [Hnext2 [more2 Hmore2]]].
  split; [exact Hkey2 |]. split; [congruence |].
  exists (more1 ++ more2). now rewrite Hmore2, Hmore1, <- app_assoc.
Qed.
End Runs.

Lemma submit_handler_elsewhere {World : Type} (key : option pystr)
    (R : Agent.t World -> pystr -> UserInfo -> M World RunResult)
    (l l' : loc) (submit : bool) (user_input : pystr) (st : State World) :
  l' <> l ->
  heap (submit_handler key R l submit user_input st).1 l' = heap st l'.
Proof.
  intros Hne.
  destruct (submit && truthy (strip user_input)) eqn:Hguard.
  - apply andb_prop in Hguard as [-> Hguard].
    destruct (run_travel_agent_cases key R l (with_user_turn l user_input st))
      as [w [[o [Ho _]] | [e He]]].
    + rewrite (submit_handler_outcome _ _ _ _ _ _ _ Hguard Ho).
      unfold with_agent_turn. cbn [fst heap].
      rewrite fn_lookup_insert_ne by congruence.
      now apply with_user_turn_elsewhere.
    + rewrite (submit_handler_raise _ _ _ _ _ _ _ Hguard He).
      cbn [fst heap]. now apply with_user_turn_elsewhere.
  - now rewrite (submit_handler_skip _ _ _ _ _ _ Hguard).
Qed.

(** X9. The session outlives the runs of the script: once the session has
    its list, any number of actions, whether their runs complete or end
    with an exception, leave the session bound to that same list, allocate
    no other, and only ever add turns at its end. *)
Theorem session_survives {World : Type} (key : option pystr)
    (R : Agent.t World -> pystr -> UserInfo -> M World RunResult)
    (actions : list (bool * pystr)) (pg : Page World) (l : loc) :
  session_state pg !! py "messages" = Some l ->
  session_state (browse key R actions pg) !! py "messages" = Some l
  /\ next_loc (browse key R actions pg) = next_loc pg
  /\ exists more,
       heap (store (browse key R actions pg)) l = heap (store pg) l ++ more.
Proof.
  revert pg. induction actions as [| [submit user_input] actions IH];
    intros pg Hkey.
  - cbn. split; [exact Hkey |]. split; [reflexivity |].
    exists []. now rewrite app_nil_r.
  - unfold browse. cbn [foldl fst snd].
    fold (browse key R actions (visit key R submit user_input pg).1).
    destruct (visit_keeps key R submit user_input pg l Hkey)
      as [Hkey1 [Hnext1 [more1 Hmore1]]].
    destruct (IH _ Hkey1) as [Hkey2 [Hnext2 [more2 Hmore2]]].
    split; [exact Hkey2 |]. split; [congruence |].
    exists (more1 ++ more2). now rewrite Hmore2, Hmore1, <- app_assoc.
Qed.

(** X10. After an action whose text passes the guard and whose turn
    completes, the page shows, below the blocks of the earlier turns, a
    "You" block with the text as typed and an "Agent" block with the reply
    or the block message, and the list holds exactly these two more
    turns. *)
Theorem visit_shows_exchange {World : Type} (key : option pystr)
    (R : Agent.t World -> pystr -> UserInfo -> M World RunResult)
    (user_input : pystr) (pg pg' : Page World) (l : loc) :
  session_state pg !! py "messages" = Some l ->
  truthy (strip user_input) = true ->
  visit key R true user_input pg = (pg', Return tt) ->
  exists o : Outcome,
    heap (store pg') l = heap (store pg) l ++ exchange user_input o
    /\ screen pg'
       = (block_of <$> heap (store pg) l)
         ++ [user_block user_input; agent_block (render o)].
Proof.
  intros Hkey Hguard Hvisit. unfold visit, bind in Hvisit.
  rewrite (script_run_known _ _ _ _ _ _ Hkey), Hguard in Hvisit.
  cbn [andb] in Hvisit.
  destruct (submit_handler key R l true user_input (store pg))
    as [st1 [u | e]] eqn:Hsubmit; cbn [fst snd] in Hvisit;
    [| discriminate Hvisit].
  rewrite (script_run_known key R false [] _ l) in Hvisit by exact Hkey.
  cbn [store session_state next_loc] in Hvisit.
  rewrite (submit_handler_skip key R l false [] st1) in Hvisit by reflexivity.
  cbn [fst snd] in Hvisit. injection Hvisit as <-.
  destruct (submit_handler_completes _ _ _ _ _ _ _ Hguard Hsubmit)
    as [o [Hhere _]].
  exists o. cbn [store screen]. split; [exact Hhere |].
  rewrite Hhere, fmap_app. reflexivity.
Qed.

(** X11. After an action whose run ends with an exception, the page shows
    the blocks of the earlier turns only, while the list already holds the
    user's new message as its last turn. *)
Theorem visit_failure {World : Type} (key : option pystr)
    (R : Agent.t World -> pystr -> UserInfo -> M World RunResult)
    (submit : bool) (user_input : pystr) (pg pg' : Page World) (l : loc)
    (e : exn) :
  session_state pg !! py "messages" = Some l ->
  visit key R submit user_input pg = (pg', Raise e) ->
  screen pg' = block_of <$> heap (store pg) l
  /\ heap (store pg') l
     = heap (store pg) l ++ [{| role := py "user"; content := user_input |}].
Proof.
  intros Hkey Hvisit. unfold visit, bind in Hvisit.
  rewrite (script_run_known _ _ _ _ _ _ Hkey) in Hvisit.
  destruct (submit_handler key R l submit user_input (store pg))
    as [st1 [u | e1]] eqn:Hsubmit; cbn [fst snd] in Hvisit.
  - destruct (submit && truthy (strip user_input)); [| discriminate Hvisit].
    rewrite (script_run_known key R false [] _ l) in Hvisit by exact Hkey.
    cbn [store] in Hvisit.
    rewrite (submit_handler_skip key R l false [] st1) in Hvisit
      by reflexivity.
    discriminate Hvisit.
  - injection Hvisit as <- <-. cbn [screen store].
    split; [reflexivity |].
    now destruct (submit_handler_raise_inv _ _ _ _ _ _ _ _ Hsubmit)
      as (_ & _ & Hhere & _).
Qed.

(** X12. The first run of a session, where [st.session_state] has no
    ["messages"] yet, binds it to a new list, draws no chat block, and
    touches no other list; when the form holds nothing to send, the new
    list is left empty and the runtime is not called. *)
Theorem first_run {World : Type} (key : option pystr)
    (R : Agent.t World -> pystr -> UserInfo -> M World RunResult)
    (submit : bool) (user_input : pystr) (pg : Page World) :
  session_state pg !! py "messages" = None ->
  session_state (script_run key R submit user_input pg).1 !! py "messages"
  = Some (next_loc pg)
  /\ screen (script_run key R submit user_input pg).1 = []
  /\ (forall l, l <> next_loc pg ->
        heap (store (script_run key R submit user_input pg).1) l
        = heap (store pg) l)
  /\ (submit && has_visible user_input = false ->
      heap (store (script_run key R submit user_input pg).1) (next_loc pg) = []
      /\ world (store (script_run key R submit user_input pg).1)
         = world (store pg)).
Proof.
  intros Hkey.
  destruct (init_session_binds pg Hkey) as (Hbound & Hempty & Hframe & Hworld).
  rewrite script_run_init.
  rewrite (script_run_known _ _ _ _ _ _ Hbound).
  cbn [fst session_state screen store]. rewrite Hempty.
  split; [exact Hbound |]. split; [reflexivity |]. split.
  - intros l Hl. rewrite submit_handler_elsewhere by exact Hl.
    now apply Hframe.
  - rewrite <- truthy_strip. intros Hguard.
    rewrite (submit_handler_skip _ _ _ _ _ _ Hguard). cbn [fst].
    split; [exact Hempty | exact Hworld].
Qed.

Lemma session_survives_witness :
  session_state
    (browse None
       (Runner.run (scripted (verdict_in false "a travel request")
                             (Failed NetworkFailure)
                             (verdict_out false "unused")))
       [(true, py "Flights from Tokyo to Seoul?"); (true, py "   ");
        (false, py "And back?")]
       (chat_page seoul)) !! py "messages" = Some 0
  /\ next_loc
       (browse None
          (Runner.run (scripted (verdict_in false "a travel request")
                                (Failed NetworkFailure)
                                (verdict_out false "unused")))
          [(true, py "Flights from Tokyo to Seoul?"); (true, py "   ");
           (false, py "And back?")]
          (chat_page seoul)) = next_loc (chat_page seoul)
  /\ exists more,
       heap (store
         (browse None
            (Runner.run (scripted (verdict_in false "a travel request")
                                  (Failed NetworkFailure)
                                  (verdict_out false "unused")))
            [(true, py "Flights from Tokyo to Seoul?"); (true, py "   ");
             (false, py "And back?")]
            (chat_page seoul))) 0
       = heap (store (chat_page seoul)) 0 ++ more.
Proof.
  apply (session_survives None
           (Runner.run (scripted (verdict_in false "a travel request")
                                 (Failed NetworkFailure)
                                 (verdict_out false "unused")))
           [(true, py "Flights from Tokyo to Seoul?"); (true, py "   ");
            (false, py "And back?")]
           (chat_page seoul) 0).
  vm_compute. reflexivity.
Defined.

Lemma visit_shows_exchange_witness :
  exists pg',
    visit None
      (Runner.run (scripted (verdict_in true "not about travel")
                            (reply_text "unused") (verdict_out false "unused")))
      true (py "Write my essay") (chat_page seoul)
    = (pg', Return tt)
    /\ exists o : Outcome,
         heap (store pg') 0
         = heap (store (chat_page seoul)) 0 ++ exchange (py "Write my essay") o
         /\ screen pg'
            = (block_of <$> heap (store (chat_page seoul)) 0)
              ++ [user_block (py "Write my essay"); agent_block (render o)].
Proof.
  eexists. split; [vm_compute; reflexivity |].
  apply (visit_shows_exchange None
           (Runner.run (scripted (verdict_in true "not about travel")
                                 (reply_text "unused")
                                 (verdict_out false "unused")))
           (py "Write my essay") (chat_page seoul) _ 0).
  - vm_compute. reflexivity.
  - reflexivity.
  - vm_compute. reflexivity.
Defined.

Lemma visit_failure_witness :
  exists pg',
    visit None
      (Runner.run (scripted (Failed AuthenticationFailure)
                            (reply_text "unused") (verdict_out false "unused")))
      true (py "And back?") (chat_page seoul)
    = (pg', Raise (ProviderError AuthenticationFailure))
    /\ screen pg' = block_of <$> heap (store (chat_page seoul)) 0
    /\ heap (store pg') 0
       = heap (store (chat_page seoul)) 0
         ++ [{| role := py "user"; content := py "And back?" |}].
Proof.
  eexists. split; [vm_compute; reflexivity |].
  apply (visit_failure None
           (Runner.run (scripted (Failed AuthenticationFailure)
                                 (reply_text "unused")
                                 (verdict_out false "unused")))
           true (py "And back?") (chat_page seoul) _ 0
           (ProviderError AuthenticationFailure)).
  - vm_compute. reflexivity.
  - vm_compute. reflexivity.
Defined.

Lemma first_run_witness :
  session_state
    (script_run None
       (Runner.run (scripted (verdict_in false "unused") (reply_text "unused")
                             (verdict_out false "unused")))
       false [] new_page).1 !! py "messages" = Some 0
  /\ screen
       (script_run None
          (Runner.run (scripted (verdict_in false "unused")
                                (reply_text "unused")
                                (verdict_out false "unused")))
          false [] new_page).1 = [].
Proof.
  pose proof (first_run None
                (Runner.run (scripted (verdict_in false "unused")
                                      (reply_text "unused")
                                      (verdict_out false "unused")))
                false [] new_page) as H.
  destruct H as (Hbound & Hscreen & _); [vm_compute; reflexivity |].
  split; [exact Hbound | exact Hscreen].
Defined.
